(** * CementOS dashboard: the client logic, embedded and verified

    The repository is a React single-page application.  The parts with
    behaviour worth stating are the API service layer
    ([services/api.ts]), the floating chat widget
    ([components/FloatingChatbot.tsx]), the API status indicator
    ([components/dashboard/APIStatusIndicator.tsx]), the team form of the
    profile modal ([components/modals/ProfileModal.tsx]) and the
    saved-scenarios manager.  Each is embedded below as pure functions
    over explicit state; what the browser supplies (the network, the
    clock, [Math.random], local storage) is passed in. *)

From Stdlib Require Import ZArith NArith QArith String Ascii DecimalString.
From Stdlib Require List.
From stdpp Require Import gmap list.

Local Open Scope N_scope.

(** ** JavaScript strings

    A JavaScript string is a sequence of 16-bit code units, here a
    [list N]. *)

Module JS.

(** Code units of an ASCII literal. *)
Definition js (s : string) : list N :=
  List.map N_of_ascii (list_ascii_of_string s).

(** Truthiness of a string value: only the empty string is falsy. *)
Definition truthy (s : list N) : bool :=
  match s with [] => false | _ :: _ => true end.

(** Truthiness of [string | null | undefined]. *)
Definition truthy_opt (o : option (list N)) : bool :=
  match o with Some s => truthy s | None => false end.

(** [a || b] where [a] may be undefined. *)
Definition or_else (a : option (list N)) (b : list N) : list N :=
  match a with
  | Some s => if truthy s then s else b
  | None => b
  end.

Definition str_eqb (a b : list N) : bool := bool_decide (a = b).

(** White space and line terminators, the characters [trim] strips
    (ECMAScript WhiteSpace and LineTerminator productions). *)
Definition is_whitespace (c : N) : bool :=
  (c =? 9) || (c =? 10) || (c =? 11) || (c =? 12) || (c =? 13)
  || (c =? 32) || (c =? 160) || (c =? 5760)
  || ((8192 <=? c) && (c <=? 8202))
  || (c =? 8232) || (c =? 8233) || (c =? 8239) || (c =? 8287)
  || (c =? 12288) || (c =? 65279).

Fixpoint trimStart (s : list N) : list N :=
  match s with
  | [] => []
  | c :: s' => if is_whitespace c then trimStart s' else s
  end.

Definition trimEnd (s : list N) : list N :=
  List.rev (trimStart (List.rev s)).

(** [String.prototype.trim]. *)
Definition trim (s : list N) : list N := trimEnd (trimStart s).

(** [String.prototype.substring(start, end)] for non-negative integer
    arguments: both are clamped to the length and swapped when out of
    order. *)
Definition substring (from to : nat) (s : list N) : list N :=
  let n := length s in
  let a := Nat.min from n in
  let b := Nat.min to n in
  let lo := Nat.min a b in
  let hi := Nat.max a b in
  List.firstn (hi - lo) (List.skipn lo s).

Fixpoint startsWith (t s : list N) : bool :=
  match t, s with
  | [], _ => true
  | _ :: _, [] => false
  | a :: t', b :: s' => (a =? b) && startsWith t' s'
  end.

(** [s.includes(t)]: [t] occurs in [s] as a contiguous run. *)
Fixpoint includes (s t : list N) : bool :=
  startsWith t s ||
  match s with
  | [] => false
  | _ :: s' => includes s' t
  end.

(** [Number.prototype.toString()] on an integer value (below 10^21 in
    size, where JavaScript prints all the digits). *)
Definition Number_toString (z : Z) : list N :=
  js (NilZero.string_of_int (Z.to_int z)).

(** The ASCII part of [String.prototype.toLowerCase]: the letters [A]
    to [Z] move to [a] to [z]. *)
Definition toLowerCase_ascii (s : list N) : list N :=
  List.map (fun c => if (65 <=? c) && (c <=? 90) then c + 32 else c) s.

End JS.

(** ** The API service layer ([services/api.ts]) *)

Module Api.
Import JS.

Definition BASE_URL : list N :=
  js "https://cemenos-904719874116.us-central1.run.app".

(** The local-storage key of the session identifier. *)
Definition SESSION_KEY : list N := js "cemenos_session_id".

(** *** Thrown values *)

Record Error := mkError { err_name : list N; err_message : list N }.

(** What an awaited promise settles to. *)
Inductive settled (T : Type) : Type :=
| Fulfilled (v : T)
| Rejected (e : Error).
Arguments Fulfilled {T} v.
Arguments Rejected {T} e.

(** *** Requests and responses *)

(** [RequestInit], with the three members this client ever sets. *)
Record RequestInit := mkInit {
  init_method : option (list N);
  init_headers : option (list (list N * list N));
  init_body : option (list N)
}.

Definition no_options : RequestInit :=
  {| init_method := None; init_headers := None; init_body := None |}.

(** One call of [fetch(url, finalOptions)]. *)
Record Request := mkRequest {
  req_url : list N;
  req_method : option (list N);
  req_headers : list (list N * list N);
  req_body : option (list N)
}.

(** A response as the client sees it: its status and what awaiting
    [response.json()] settles to (the body parsed at type [T], or the
    rejection of a body that is not JSON). *)
Record Response (T : Type) := mkResponse {
  status : Z;
  json : settled T
}.
Arguments mkResponse {T} status json.
Arguments status {T} r.
Arguments json {T} r.

(** [response.ok]: the status is in the range 200 to 299. *)
Definition ok {T} (r : Response T) : bool :=
  ((200 <=? status r) && (status r <=? 299))%Z.

(** The network at the time of a call: what [await fetch(...)] settles
    to for a request. *)
Definition Network (T : Type) : Type := Request -> settled (Response T).

(** *** Observable effects *)

Inductive event :=
| EvFetch (r : Request)
| EvConsoleError (label : list N)
| EvConsoleLog (label : list N).

(** *** Object spread on header maps: a later key overrides an earlier
    one, keeping the earlier position. *)

Fixpoint set_key (k : list N) (v : list N) (o : list (list N * list N))
  : list (list N * list N) :=
  match o with
  | [] => [(k, v)]
  | (k', v') :: o' =>
      if str_eqb k k' then (k, v) :: o' else (k', v') :: set_key k v o'
  end.

Definition spread (base extra : list (list N * list N))
  : list (list N * list N) :=
  List.fold_left (fun acc kv => set_key (fst kv) (snd kv) acc) extra base.

(** *** [makeRequest] *)

Definition defaultHeaders (options : RequestInit) : list (list N * list N) :=
  spread [(js "Content-Type", js "application/json")]
         (match init_headers options with Some h => h | None => [] end).

(** [{ ...defaultOptions, ...options }]: [defaultOptions] has the single
    member [headers]; a [headers] member of [options] replaces it. *)
Definition finalOptions (url : list N) (options : RequestInit) : Request :=
  {| req_url := url;
     req_method := init_method options;
     req_headers := match init_headers options with
                    | Some h => h
                    | None => defaultHeaders options
                    end;
     req_body := init_body options |}.

Definition http_error (st : Z) : Error :=
  mkError (js "Error") (js "HTTP error! status: " ++ Number_toString st).

(** The events of a call and what the returned promise settles to. *)
Definition makeRequest {T} (net : Network T)
    (endpoint : list N) (options : RequestInit)
  : list event * settled T :=
  let url := BASE_URL ++ endpoint in
  let request := finalOptions url options in
  let failed (e : Error) :=
    ([EvFetch request; EvConsoleError (js "API Request failed:")],
     Rejected e) in
  match net request with
  | Rejected e => failed e
  | Fulfilled response =>
      if negb (ok response) then failed (http_error (status response))
      else match json response with
           | Rejected e => failed e
           | Fulfilled data => ([EvFetch request], Fulfilled data)
           end
  end.

(** *** [JSON.stringify] on the values this client sends *)

#[warnings="-register-all"]
Inductive jsvalue :=
| JStr (s : list N)
| JNum (z : Z)
| JObj (members : list (list N * jsvalue)).

Definition hex_digit (n : N) : N :=
  if n <? 10 then 48 + n else 87 + n.

(** The six code units of a [\uXXXX] escape, lower-case digits. *)
Definition unicode_escape (c : N) : list N :=
  [92; 117; hex_digit ((c / 4096) mod 16); hex_digit ((c / 256) mod 16);
   hex_digit ((c / 16) mod 16); hex_digit (c mod 16)].

Definition is_high_surrogate (c : N) : bool := (55296 <=? c) && (c <=? 56319).
Definition is_low_surrogate (c : N) : bool := (56320 <=? c) && (c <=? 57343).

(** The escapes of QuoteJSONString: the short forms, [\u] escapes for
    the other control characters and for unpaired surrogates. *)
Fixpoint quote_units (s : list N) : list N :=
  match s with
  | [] => []
  | c :: s' =>
      if c =? 8 then [92; 98] ++ quote_units s'
      else if c =? 9 then [92; 116] ++ quote_units s'
      else if c =? 10 then [92; 110] ++ quote_units s'
      else if c =? 12 then [92; 102] ++ quote_units s'
      else if c =? 13 then [92; 114] ++ quote_units s'
      else if c =? 34 then [92; 34] ++ quote_units s'
      else if c =? 92 then [92; 92] ++ quote_units s'
      else if c <? 32 then unicode_escape c ++ quote_units s'
      else if is_high_surrogate c then
        match s' with
        | d :: s'' =>
            if is_low_surrogate d then c :: d :: quote_units s''
            else unicode_escape c ++ quote_units s'
        | [] => unicode_escape c
        end
      else if is_low_surrogate c then unicode_escape c ++ quote_units s'
      else c :: quote_units s'
  end.

Definition JSON_quote (s : list N) : list N := [34] ++ quote_units s ++ [34].

Fixpoint JSON_stringify (v : jsvalue) : list N :=
  match v with
  | JStr s => JSON_quote s
  | JNum z => Number_toString z
  | JObj members =>
      let fix members_text (ms : list (list N * jsvalue)) : list N :=
        match ms with
        | [] => []
        | [(k, x)] => JSON_quote k ++ [58] ++ JSON_stringify x
        | (k, x) :: ms' =>
            JSON_quote k ++ [58] ++ JSON_stringify x ++ [44] ++ members_text ms'
        end in
      [123] ++ members_text members ++ [125]
  end.

(** *** Session identifier *)

(** The client object and the browser's local storage it reads and
    writes. *)
Record CementOSAPI := mkApi { sessionId : list N }.

Record Browser := mkBrowser {
  localStorage : gmap (list N) (list N);
  api : CementOSAPI
}.

(** The identifier built from [r36], the text of
    [Math.random().toString(36)]. *)
Definition fresh_session_id (r36 : list N) : list N :=
  js "cemenos_" ++ substring 2 15 r36.

Definition getSessionId (r36 : list N) (ls : gmap (list N) (list N))
  : list N * gmap (list N) (list N) :=
  let sessionId := ls !! SESSION_KEY in
  if negb (truthy_opt sessionId) then
    let sessionId := fresh_session_id r36 in
    (sessionId, <[SESSION_KEY := sessionId]> ls)
  else
    (match sessionId with Some s => s | None => [] end, ls).

(** Module load: [export const cementOSAPI = new CementOSAPI()]. *)
Definition load (r36 : list N) (ls : gmap (list N) (list N)) : Browser :=
  let '(sessionId, ls') := getSessionId r36 ls in
  {| localStorage := ls'; api := {| sessionId := sessionId |} |}.

Definition resetSession (r36 : list N) (b : Browser) : Browser :=
  let sessionId := fresh_session_id r36 in
  {| localStorage := <[SESSION_KEY := sessionId]> (localStorage b);
     api := {| sessionId := sessionId |} |}.

Definition getCurrentSessionId (this : CementOSAPI) : list N := sessionId this.

(** *** Endpoints *)

Record ChatResponse := mkChatResponse {
  success : bool;
  response : list N;
  session_id : list N;
  timestamp : list N;
  processing_time_ms : Q
}.

Definition chat_body (message : list N) (session : list N) : jsvalue :=
  JObj [(js "message", JStr message); (js "session_id", JStr session)].

Definition sendMessage (this : CementOSAPI) (net : Network ChatResponse)
    (message : list N) (customSessionId : option (list N))
  : list event * settled ChatResponse :=
  makeRequest net (js "/chat")
    {| init_method := Some (js "POST");
       init_headers := None;
       init_body :=
         Some (JSON_stringify
                 (chat_body message (or_else customSessionId (sessionId this)))) |}.


Definition healthCheck (net : Network jsvalue) : list event * settled jsvalue :=
  makeRequest net (js "/health") no_options.

Definition getSystemStatus (net : Network jsvalue) : list event * settled jsvalue :=
  makeRequest net (js "/status") no_options.



Definition deleteSession (this : CementOSAPI) (net : Network jsvalue)
    (session : option (list N)) : list event * settled jsvalue :=
  let id := or_else session (sessionId this) in
  makeRequest net (js "/sessions/" ++ id)
    {| init_method := Some (js "DELETE");
       init_headers := None;
       init_body := None |}.


(** *** The life of the client: page loads and method calls *)





(** The stored identifier is the client's, and is not empty. *)
Definition session_stored (b : Browser) : Prop :=
  localStorage b !! SESSION_KEY = Some (sessionId (api b))
  /\ sessionId (api b) <> [].

(** The request of the interface's [POST /chat]: a JSON object of the
    two members [message] and [session_id]. *)
Definition chat_request (message session : list N) : Request :=
  {| req_url := BASE_URL ++ js "/chat";
     req_method := Some (js "POST");
     req_headers := [(js "Content-Type", js "application/json")];
     req_body :=
       Some (JSON_stringify
               (JObj [(js "message", JStr message);
                      (js "session_id", JStr session)])) |}.

(** Events that are not a [fetch]. *)
Definition not_fetch (e : event) : Prop :=
  match e with EvFetch _ => False | _ => True end.

(** *** Reading a chat body back

    The receiving side of [POST /chat]: the text of a JSON object with
    the two string members [message] and [session_id], in this order,
    read back into the two strings.  It serves to state that the body
    carries exactly these two values. *)

Definition hex_value (d : N) : option N :=
  if (48 <=? d) && (d <=? 57) then Some (d - 48)
  else if (97 <=? d) && (d <=? 102) then Some (d - 87)
  else if (65 <=? d) && (d <=? 70) then Some (d - 55)
  else None.

Definition hex4 (a b c d : N) : option N :=
  match hex_value a, hex_value b, hex_value c, hex_value d with
  | Some x, Some y, Some z, Some w => Some (4096 * x + 256 * y + 16 * z + w)
  | _, _, _, _ => None
  end.

Definition short_escape (e : N) : option N :=
  if e =? 98 then Some 8
  else if e =? 116 then Some 9
  else if e =? 110 then Some 10
  else if e =? 102 then Some 12
  else if e =? 114 then Some 13
  else if e =? 34 then Some 34
  else if e =? 92 then Some 92
  else if e =? 47 then Some 47
  else None.

Fixpoint unquote_units (t : list N) : option (list N * list N) :=
  match t with
  | [] => None
  | c :: rest =>
      if c =? 34 then Some ([], rest)
      else if c =? 92 then
        match rest with
        | [] => None
        | e :: rest1 =>
            if e =? 117 then
              match rest1 with
              | a :: b :: c' :: d :: rest2 =>
                  match hex4 a b c' d, unquote_units rest2 with
                  | Some u, Some (s, r) => Some (u :: s, r)
                  | _, _ => None
                  end
              | _ => None
              end
            else
              match short_escape e, unquote_units rest1 with
              | Some u, Some (s, r) => Some (u :: s, r)
              | _, _ => None
              end
        end
      else
        match unquote_units rest with
        | Some (s, r) => Some (c :: s, r)
        | None => None
        end
  end.

(** A quoted string at the head of [t]: its value and what follows. *)
Definition unquote (t : list N) : option (list N * list N) :=
  match t with
  | [] => None
  | c :: t' => if c =? 34 then unquote_units t' else None
  end.

Definition expect (c : N) (t : list N) : option (list N) :=
  match t with
  | [] => None
  | d :: t' => if d =? c then Some t' else None
  end.

Definition read_chat_body (t : list N) : option (list N * list N) :=
  t ← expect 123 t;
  '(k1, t) ← unquote t;
  t ← expect 58 t;
  '(message, t) ← unquote t;
  t ← expect 44 t;
  '(k2, t) ← unquote t;
  t ← expect 58 t;
  '(session, t) ← unquote t;
  t ← expect 125 t;
  if str_eqb k1 (js "message") && str_eqb k2 (js "session_id")
     && negb (truthy t)
  then Some (message, session)
  else None.

(** The ways a call can fail. *)
Definition raises {T} (r : list event * settled T) : Prop :=
  exists e, snd r = Rejected e.

Definition fetch_throws {T} (net : Network T) (request : Request) : Prop :=
  exists e, net request = Rejected e.

Definition status_not_2xx {T} (net : Network T) (request : Request) : Prop :=
  exists resp, net request = Fulfilled resp /\ ok resp = false.

Definition body_not_json {T} (net : Network T) (request : Request) : Prop :=
  exists resp e,
    net request = Fulfilled resp /\ ok resp = true /\ json resp = Rejected e.

End Api.

(** ** Toast notifications ([hooks/use-toast]) *)

Module UI.

Record Toast := mkToast {
  title : list N;
  description : list N;
  variant : option (list N)
}.

End UI.

(** ** The floating chat widget ([components/FloatingChatbot.tsx]) *)

Module Chatbot.
Import JS.

Inductive sender := user | bot.

Record ChatMessage := mkChatMessage {
  type : sender;
  message : list N;
  timestamp : list N;
  processingTime : option Q;
  isError : option bool
}.

(** The component's state hooks. *)
Record State := mkState {
  isOpen : bool;
  isMinimized : bool;
  draft : list N;          (* the [message] hook: the input's text *)
  isLoading : bool;
  isConnected : bool;
  chatHistory : list ChatMessage
}.

Definition greeting : list N :=
  js "Hello! I'm CementOS AI Assistant. I can help you with plant operations, optimization, troubleshooting, and performance analysis. How can I assist you today?".

Definition initial (now : list N) : State :=
  {| isOpen := false; isMinimized := false; draft := [];
     isLoading := false; isConnected := false;
     chatHistory :=
       [ {| type := bot; message := greeting; timestamp := now;
            processingTime := None; isError := None |} ] |}.

(** Calls of the state setters.  [setChatHistory] is only ever called
    with [prev => [...prev, m]]. *)
Inductive action :=
| setChatHistory_append (m : ChatMessage)
| setIsLoading (b : bool)
| setMessage (s : list N)
| setIsConnected (b : bool).

Definition apply (st : State) (a : action) : State :=
  match a with
  | setChatHistory_append m =>
      {| isOpen := isOpen st; isMinimized := isMinimized st;
         draft := draft st; isLoading := isLoading st;
         isConnected := isConnected st;
         chatHistory := chatHistory st ++ [m] |}
  | setIsLoading b =>
      {| isOpen := isOpen st; isMinimized := isMinimized st;
         draft := draft st; isLoading := b;
         isConnected := isConnected st;
         chatHistory := chatHistory st |}
  | setMessage s =>
      {| isOpen := isOpen st; isMinimized := isMinimized st;
         draft := s; isLoading := isLoading st;
         isConnected := isConnected st;
         chatHistory := chatHistory st |}
  | setIsConnected b =>
      {| isOpen := isOpen st; isMinimized := isMinimized st;
         draft := draft st; isLoading := isLoading st;
         isConnected := b;
         chatHistory := chatHistory st |}
  end.

Definition commit (acts : list action) (st : State) : State :=
  List.fold_left apply acts st.

(** What a handler does besides setting state. *)
Inductive effect :=
| Api_event (e : Api.event)
| Sleep (ms : N)
| console_log (label : list N)
| console_error (label : list N)
| toast (t : UI.Toast).

Definition is_fetch (e : effect) : bool :=
  match e with Api_event (Api.EvFetch _) => true | _ => false end.

(** *** [checkAPIConnection] *)

Definition checkAPIConnection (net : Api.Network Api.jsvalue)
  : list effect * list action :=
  let '(ev, r) := Api.healthCheck net in
  match r with
  | Api.Fulfilled _ =>
      (List.map Api_event ev
         ++ [console_log (js "CementOS API connected successfully")],
       [setIsConnected true])
  | Api.Rejected _ =>
      (List.map Api_event ev
         ++ [console_error (js "Failed to connect to CementOS API:");
             toast {| UI.title := js "API Connection Issue";
                      UI.description :=
                        js "Using offline mode. Some features may be limited.";
                      UI.variant := Some (js "destructive") |}],
       [setIsConnected false])
  end.

(** *** [handleSend] *)

(** The simulated replies of offline mode. *)
Definition responses : list (list N) :=
  [ js "Based on current data, I recommend increasing alternative fuel usage by 5% to reduce CO2 emissions.";
    js "Your energy efficiency is at 87.5%. I can help optimize thermal settings to reach 90%.";
    js "I notice temperature fluctuations in the kiln. Would you like me to analyze the thermal patterns?";
    js "Quality parameters look good. The recent C3S content adjustment is showing positive results.";
    js "I can run a full plant optimization if you'd like. This typically improves efficiency by 3-5%.";
    js "Your NOx emissions are within limits. Alternative fuel ratio is performing well at current levels.";
    js "I've detected an opportunity to reduce energy consumption by optimizing mill operations. Shall I proceed?" ].

Definition OFFLINE_PREFIX : list N := js "[OFFLINE MODE] ".

Definition apology : list N :=
  js "I apologize, but I'm experiencing technical difficulties. Please try again in a moment, or contact support if the issue persists.".

(** A value of [Math.random()]: the fraction [numer / denom]. *)
Record draw := mkDraw { numer : N; denom : N }.


(** [Math.floor(r * n)], the product taken exactly. *)
Definition floor_scaled (r : draw) (n : nat) : nat :=
  N.to_nat ((numer r * N.of_nat n) / denom r).

(** [xs[i]] inside a template literal: out of range prints [undefined]. *)
Definition pick (xs : list (list N)) (i : nat) : list N :=
  List.nth i xs (js "undefined").

(** What the browser supplies during one send. *)
Record Env := mkEnv {
  time_sent : list N;                    (* [new Date().toLocaleTimeString()] at the click *)
  net : Api.Network Api.ChatResponse;
  toLocaleTime : list N -> list N;       (* [new Date(ts).toLocaleTimeString()] *)
  random : draw;                         (* [Math.random()] *)
  time_reply : list N                    (* [new Date().toLocaleTimeString()] at the reply *)
}.

(** One run of the handler: the setter calls made before the first
    [await], the effects, and the setter calls made after it. *)
Record Run := mkRun {
  immediate : list action;
  effects : list effect;
  deferred : list action
}.

Definition nothing : Run :=
  {| immediate := []; effects := []; deferred := [] |}.

(** The [try] block: its effects and either the setter calls it made or
    the error it threw. *)
Definition try_block (this : Api.CementOSAPI) (connected : bool)
    (currentMessage : list N) (env : Env)
  : list effect * Api.settled (list action) :=
  if connected then
    let '(ev, r) := Api.sendMessage this (net env) currentMessage None in
    match r with
    | Api.Rejected e => (List.map Api_event ev, Api.Rejected e)
    | Api.Fulfilled response =>
        if Api.success response then
          let aiMessage :=
            {| type := bot;
               message := Api.response response;
               timestamp := toLocaleTime env (Api.timestamp response);
               processingTime := Some (Api.processing_time_ms response);
               isError := None |} in
          (List.map Api_event ev,
           Api.Fulfilled [setChatHistory_append aiMessage])
        else
          (List.map Api_event ev,
           Api.Rejected
             (Api.mkError (js "Error")
                          (js "API returned unsuccessful response")))
    end
  else
    let aiMessage :=
      {| type := bot;
         message :=
           OFFLINE_PREFIX
             ++ pick responses (floor_scaled (random env) (length responses));
         timestamp := time_reply env;
         processingTime := None;
         isError := None |} in
    ([Sleep 1000], Api.Fulfilled [setChatHistory_append aiMessage]).

Definition catch_block (env : Env) : list effect * list action :=
  let errorMessage :=
    {| type := bot; message := apology; timestamp := time_reply env;
       processingTime := None; isError := Some true |} in
  ([console_error (js "Chat error:");
    toast {| UI.title := js "Chat Error";
             UI.description := js "Failed to get response from AI assistant";
             UI.variant := Some (js "destructive") |}],
   [setChatHistory_append errorMessage]).

Definition handleSend (this : Api.CementOSAPI) (st : State) (env : Env) : Run :=
  if negb (truthy (trim (draft st))) || isLoading st then nothing
  else
    let userMessage :=
      {| type := user; message := draft st; timestamp := time_sent env;
         processingTime := None; isError := None |} in
    let currentMessage := draft st in
    let '(ev, r) := try_block this (isConnected st) currentMessage env in
    let '(ev', acts) :=
      match r with
      | Api.Fulfilled acts => ([], acts)
      | Api.Rejected _ => catch_block env
      end in
    {| immediate :=
         [setChatHistory_append userMessage; setIsLoading true; setMessage []];
       effects := ev ++ ev';
       deferred := acts ++ [setIsLoading false] |}.

(** The state once a run has finished with nothing else in between. *)
Definition settle (r : Run) (st : State) : State :=
  commit (deferred r) (commit (immediate r) st).

(** The bot's reply in a run, if it made one. *)
Definition reply (r : Run) : option ChatMessage :=
  match deferred r with
  | setChatHistory_append m :: _ => Some m
  | _ => None
  end.


Definition user_message (st : State) (env : Env) : ChatMessage :=
  {| type := user; message := draft st; timestamp := time_sent env;
     processingTime := None; isError := None |}.

Definition error_message (env : Env) : ChatMessage :=
  {| type := bot; message := apology; timestamp := time_reply env;
     processingTime := None; isError := Some true |}.


(** *** The input row and the quick actions *)

(** [disabled] of the send button: [isLoading || !message.trim()]. *)
Definition send_disabled (st : State) : bool :=
  isLoading st || negb (truthy (trim (draft st))).

(** [onKeyPress] of the input:
    [e.key === 'Enter' && !isLoading && handleSend()]. *)
Definition onKeyPress (key : list N) (this : Api.CementOSAPI)
    (st : State) (env : Env) : Run :=
  if str_eqb key (js "Enter") && negb (isLoading st)
  then handleSend this st env
  else nothing.

(** The labels of the quick-action buttons; each starts with an emoji
    (a surrogate pair, or the single code unit U+26A1) and a space. *)
Definition quickActions : list (list N) :=
  [ [55357; 56589] ++ js " Check plant status";
    [9889] ++ js " Optimize energy usage";
    [55356; 57263] ++ js " Review quality metrics";
    [55356; 57137] ++ js " Analyze emissions";
    [55357; 56522] ++ js " Generate report";
    [55357; 57000] ++ js " View alerts" ].

(** [action.substring(2)]: from index 2 to the end. *)
Definition quickAction_text (label : list N) : list N :=
  substring 2 (length label) label.

(** [onClick] of a quick-action button. *)
Definition quickAction_click (label : list N) : list action :=
  [setMessage (quickAction_text label)].

(** The buttons shown: [quickActions.slice(0, 3)]. *)
Definition shown_quickActions : list (list N) := List.firstn 3 quickActions.

End Chatbot.

(** ** The API status indicator
    ([components/dashboard/APIStatusIndicator.tsx]) *)

Module StatusIndicator.
Import JS.

Record State := mkState {
  isConnected : option bool;     (* [null] until the first check ends *)
  isChecking : bool;
  lastChecked : list N
}.

Definition initial : State :=
  {| isConnected := None; isChecking := false; lastChecked := [] |}.

Inductive action :=
| setIsConnected (b : bool)
| setIsChecking (b : bool)
| setLastChecked (s : list N).

Definition apply (st : State) (a : action) : State :=
  match a with
  | setIsConnected b =>
      {| isConnected := Some b; isChecking := isChecking st;
         lastChecked := lastChecked st |}
  | setIsChecking b =>
      {| isConnected := isConnected st; isChecking := b;
         lastChecked := lastChecked st |}
  | setLastChecked s =>
      {| isConnected := isConnected st; isChecking := isChecking st;
         lastChecked := s |}
  end.

(** [checkConnection]: the requests it makes and its setter calls, in
    order; [time] is [new Date().toLocaleTimeString()] when the health
    check has settled. *)
Definition checkConnection (net : Api.Network Api.jsvalue) (time : list N)
  : list Api.event * list action :=
  let '(ev, r) := Api.healthCheck net in
  (ev,
   [setIsChecking true]
     ++ match r with
        | Api.Fulfilled _ => [setIsConnected true; setLastChecked time]
        | Api.Rejected _ => [setIsConnected false; setLastChecked time]
        end
     ++ [setIsChecking false]).

(** *** Interval timers

    The browser's timer table, on a clock counted in milliseconds.  The
    component registers one kind of callback. *)

Inductive callback := checkConnection_cb.

Record Interval := mkInterval {
  id : N;
  handler : callback;
  delay : N;
  due : N
}.

Record Timers := mkTimers {
  now : N;
  next_id : N;
  intervals : list Interval;
  calls : list (N * callback)      (* every callback invocation, with its time *)
}.

Definition idle (t0 i0 : N) : Timers :=
  {| now := t0; next_id := i0; intervals := []; calls := [] |}.

Definition invoke (h : callback) (tm : Timers) : Timers :=
  {| now := now tm; next_id := next_id tm; intervals := intervals tm;
     calls := calls tm ++ [(now tm, h)] |}.

Definition setInterval (h : callback) (ms : N) (tm : Timers) : N * Timers :=
  (next_id tm,
   {| now := now tm; next_id := next_id tm + 1;
      intervals := intervals tm
        ++ [{| id := next_id tm; handler := h; delay := ms;
               due := now tm + ms |}];
      calls := calls tm |}).

Definition clearInterval (i : N) (tm : Timers) : Timers :=
  {| now := now tm; next_id := next_id tm;
     intervals := List.filter (fun iv => negb (id iv =? i)) (intervals tm);
     calls := calls tm |}.

(** One millisecond passes: every interval that falls due is invoked and
    armed again one delay later. *)
Definition tick (tm : Timers) : Timers :=
  let t := now tm + 1 in
  let fired := List.filter (fun iv => due iv =? t) (intervals tm) in
  {| now := t; next_id := next_id tm;
     intervals :=
       List.map (fun iv =>
                   if due iv =? t
                   then {| id := id iv; handler := handler iv;
                           delay := delay iv; due := t + delay iv |}
                   else iv)
                (intervals tm);
     calls := calls tm ++ List.map (fun iv => (t, handler iv)) fired |}.

Definition elapse (ms : N) (tm : Timers) : Timers := N.iter ms tick tm.

(** *** The mount effect, [useEffect(..., [])]

    The effect body runs once when the component mounts; the function it
    returns runs when the component unmounts. *)

Definition POLL_MS : N := 30000.

Definition mount (tm : Timers) : N * Timers :=
  let tm1 := invoke checkConnection_cb tm in
  let '(interval, tm2) := setInterval checkConnection_cb POLL_MS tm1 in
  (interval, tm2).

Definition unmount (interval : N) (tm : Timers) : Timers :=
  clearInterval interval tm.

(** What an invocation of a registered callback runs. *)
Definition run_callback (cb : callback)
  : Api.Network Api.jsvalue -> list N -> list Api.event * list action :=
  match cb with checkConnection_cb => checkConnection end.

(** The times of the health checks of a component mounted at [t0] and
    alive for [n] milliseconds: [t0], [t0 + 30000], [t0 + 60000], ... *)
Definition poll_times (t0 n : N) : list (N * callback) :=
  List.map (fun k => (t0 + POLL_MS * N.of_nat k, checkConnection_cb))
           (List.seq 0 (S (N.to_nat (n / POLL_MS)))).

(** The state once the setter calls of a check have been applied. *)
Definition commit (acts : list action) (st : State) : State :=
  List.fold_left apply acts st.

(** The text of the badge. *)
Definition badge_text (st : State) : list N :=
  match isConnected st with
  | None => js "Checking..."
  | Some true => js "CementOS API Connected"
  | Some false => js "API Offline"
  end.

(** Every interval of the table was handed out by [setInterval]: its
    identifier is below the next one. *)
Definition ids_issued (tm : Timers) : Prop :=
  List.Forall (fun iv => id iv < next_id tm) (intervals tm).

(** What [tick] makes of one interval when the clock comes to [t]. *)
Definition advance (t : N) (iv : Interval) : Interval :=
  if due iv =? t
  then {| id := id iv; handler := handler iv; delay := delay iv;
          due := t + delay iv |}
  else iv.

End StatusIndicator.

(** ** The team form of the profile modal
    ([components/modals/ProfileModal.tsx]) *)

Module Profile.
Import JS.

Record Member := mkMember {
  name : list N;
  role : list N;
  email : list N;
  phone : list N;
  experience : list N;
  department : list N
}.

Definition managementTeam : list Member :=
  [ {| name := js "Rajesh Kumar"; role := js "Plant Manager";
       email := js "rajesh.k@plant.com"; phone := js "+91-9876543210";
       experience := js "15 years"; department := js "Operations" |};
    {| name := js "Priya Sharma"; role := js "Operations Head";
       email := js "priya.s@plant.com"; phone := js "+91-9876543211";
       experience := js "12 years"; department := js "Production" |};
    {| name := js "Amit Singh"; role := js "Maintenance Chief";
       email := js "amit.s@plant.com"; phone := js "+91-9876543212";
       experience := js "18 years"; department := js "Maintenance" |};
    {| name := js "Neha Gupta"; role := js "Quality Controller";
       email := js "neha.g@plant.com"; phone := js "+91-9876543213";
       experience := js "10 years"; department := js "Quality" |} ].

Definition blank : Member :=
  {| name := []; role := []; email := []; phone := [];
     experience := []; department := [] |}.

(** The hooks of the team tab. *)
Record State := mkState {
  teamMembers : list Member;
  isAddingMember : bool;
  newMember : Member
}.

Definition initial : State :=
  {| teamMembers := managementTeam; isAddingMember := false;
     newMember := blank |}.

Definition handleAddMember (st : State) : State * list UI.Toast :=
  let m := newMember st in
  if truthy (name m) && truthy (role m) && truthy (email m) then
    ({| teamMembers := teamMembers st ++ [m];
        isAddingMember := false;
        newMember := blank |},
     [ {| UI.title := js "Team Member Added";
          UI.description :=
            name m ++ js " has been successfully added to the management team.";
          UI.variant := None |} ])
  else
    (st,
     [ {| UI.title := js "Missing Information";
          UI.description :=
            js "Please fill in all required fields (Name, Role, Email).";
          UI.variant := Some (js "destructive") |} ]).

(** [xs.filter((_, i) => i !== index)], counting positions from [k]. *)
Fixpoint filter_index_from {A} (k index : nat) (xs : list A) : list A :=
  match xs with
  | [] => []
  | x :: xs' =>
      if negb (k =? index)%nat
      then x :: filter_index_from (S k) index xs'
      else filter_index_from (S k) index xs'
  end.

Definition filter_index {A} (index : nat) (xs : list A) : list A :=
  filter_index_from 0 index xs.

(** The error of reading a property of [undefined]. *)
Definition undefined_property (prop : list N) : Api.Error :=
  Api.mkError (js "TypeError")
    (js "Cannot read properties of undefined (reading '" ++ prop ++ js "')").

(** [handleDeleteMember(index)], for an index that is a natural number:
    reading [teamMembers[index].name] throws when there is no such
    member, before any setter is called. *)
Definition handleDeleteMember (index : nat) (st : State)
  : Api.settled (State * list UI.Toast) :=
  match List.nth_error (teamMembers st) index with
  | None => Api.Rejected (undefined_property (js "name"))
  | Some member =>
      let memberName := name member in
      Api.Fulfilled
        ({| teamMembers := filter_index index (teamMembers st);
            isAddingMember := isAddingMember st;
            newMember := newMember st |},
         [ {| UI.title := js "Team Member Removed";
              UI.description :=
                memberName ++ js " has been removed from the management team.";
              UI.variant := None |} ])
  end.

End Profile.

(** ** The saved-scenarios manager ([SavedScenariosManager]) *)

Module Scenarios.
Import JS.

Inductive Category := optimization | stress_test | maintenance | emergency.
Inductive Status := draft | validated | production.

(** The string a category is at run time. *)
Definition category_key (c : Category) : list N :=
  match c with
  | optimization => js "optimization"
  | stress_test => js "stress-test"
  | maintenance => js "maintenance"
  | emergency => js "emergency"
  end.

Record Parameters := mkParameters {
  objective : list N;
  duration : list N;
  speed : list N;
  safetyLimits : bool;
  autoStop : bool
}.

Record Expected := mkExpected { value : list N; change : list N }.

Record ExpectedResults := mkExpectedResults {
  quality : Expected;
  energy : Expected;
  emissions : Expected;
  cost : Expected
}.

Record LastResults := mkLastResults {
  last_quality : Q;
  last_energy : Q;
  last_emissions : Q;
  last_cost : Q;
  last_timestamp : list N
}.

Record SavedScenario := mkScenario {
  id : list N;
  name : list N;
  description : list N;
  created : list N;
  modified : list N;
  author : list N;
  category : Category;
  status : Status;
  successRate : Q;
  runs : Q;
  averageDuration : list N;
  tags : list (list N);
  parameters : Parameters;
  expectedResults : ExpectedResults;
  lastResults : option LastResults
}.

Definition energy_crisis_mode : SavedScenario :=
  {| id := js "1"; name := js "Energy Crisis Mode";
     description := js "Optimizes for maximum energy efficiency during power shortages";
     created := js "2 days ago"; modified := js "1 hour ago";
     author := js "Priya Sharma"; category := optimization;
     status := production; successRate := 94 # 1; runs := 23 # 1;
     averageDuration := js "6h 15m";
     tags := [js "energy"; js "efficiency"; js "crisis"];
     parameters := {| objective := js "efficiency"; duration := js "8 hours";
                      speed := js "5x"; safetyLimits := true; autoStop := true |};
     expectedResults :=
       {| quality := {| value := js "92%"; change := js "-2%" |};
          energy := {| value := js "3.1 GJ/ton"; change := js "-8%" |};
          emissions := {| value := js "122 kg/ton"; change := js "+3%" |};
          cost := {| value := js "$78/ton"; change := js "-6%" |} |};
     lastResults :=
       Some {| last_quality := 918 # 10; last_energy := 312 # 100;
               last_emissions := 123 # 1; last_cost := 775 # 10;
               last_timestamp := js "2024-01-15 14:30" |} |}.

Definition green_cement_protocol : SavedScenario :=
  {| id := js "2"; name := js "Green Cement Protocol";
     description := js "Maximizes alternative fuel usage for CO2 reduction";
     created := js "1 week ago"; modified := js "3 days ago";
     author := js "Rajesh Kumar"; category := optimization;
     status := validated; successRate := 87 # 1; runs := 15 # 1;
     averageDuration := js "12h 45m";
     tags := [js "emissions"; js "green"; js "sustainability"];
     parameters := {| objective := js "emissions"; duration := js "24 hours";
                      speed := js "8x"; safetyLimits := true; autoStop := false |};
     expectedResults :=
       {| quality := {| value := js "89%"; change := js "-5%" |};
          energy := {| value := js "3.3 GJ/ton"; change := js "+2%" |};
          emissions := {| value := js "105 kg/ton"; change := js "-18%" |};
          cost := {| value := js "$86/ton"; change := js "+8%" |} |};
     lastResults := None |}.

Definition quality_first_emergency : SavedScenario :=
  {| id := js "3"; name := js "Quality First Emergency";
     description := js "Emergency protocol to maintain quality during equipment failures";
     created := js "3 days ago"; modified := js "2 days ago";
     author := js "Neha Gupta"; category := emergency;
     status := production; successRate := 96 # 1; runs := 8 # 1;
     averageDuration := js "4h 20m";
     tags := [js "quality"; js "emergency"; js "backup"];
     parameters := {| objective := js "quality"; duration := js "6 hours";
                      speed := js "2x"; safetyLimits := true; autoStop := true |};
     expectedResults :=
       {| quality := {| value := js "95%"; change := js "+1%" |};
          energy := {| value := js "3.4 GJ/ton"; change := js "+6%" |};
          emissions := {| value := js "125 kg/ton"; change := js "+6%" |};
          cost := {| value := js "$92/ton"; change := js "+12%" |} |};
     lastResults := None |}.

Definition maintenance_mode_optimization : SavedScenario :=
  {| id := js "4"; name := js "Maintenance Mode Optimization";
     description := js "Optimized operations during scheduled maintenance windows";
     created := js "5 days ago"; modified := js "1 day ago";
     author := js "Amit Singh"; category := maintenance;
     status := draft; successRate := 78 # 1; runs := 5 # 1;
     averageDuration := js "8h 30m";
     tags := [js "maintenance"; js "reduced-capacity"; js "optimization"];
     parameters := {| objective := js "efficiency"; duration := js "12 hours";
                      speed := js "4x"; safetyLimits := true; autoStop := true |};
     expectedResults :=
       {| quality := {| value := js "88%"; change := js "-6%" |};
          energy := {| value := js "3.6 GJ/ton"; change := js "+12%" |};
          emissions := {| value := js "130 kg/ton"; change := js "+10%" |};
          cost := {| value := js "$85/ton"; change := js "+3%" |} |};
     lastResults := None |}.

Definition initial_scenarios : list SavedScenario :=
  [ energy_crisis_mode;
    green_cement_protocol;
    quality_first_emergency;
    maintenance_mode_optimization ].

(** The hooks of the manager. *)
Record State := mkState {
  scenarios : list SavedScenario;
  selectedCategory : list N;
  searchQuery : list N;
  newScenarioName : list N;
  selectedScenario : option SavedScenario
}.

Definition initial : State :=
  {| scenarios := initial_scenarios; selectedCategory := js "all";
     searchQuery := []; newScenarioName := []; selectedScenario := None |}.

Section Filter.

(** [String.prototype.toLowerCase] is the host's Unicode case mapping;
    the filter is stated over any such function. *)
Variable toLowerCase : list N -> list N.

Definition matchesCategory (st : State) (scenario : SavedScenario) : bool :=
  str_eqb (selectedCategory st) (js "all")
  || str_eqb (category_key (category scenario)) (selectedCategory st).

Definition matchesSearch (st : State) (scenario : SavedScenario) : bool :=
  includes (toLowerCase (name scenario)) (toLowerCase (searchQuery st))
  || includes (toLowerCase (description scenario)) (toLowerCase (searchQuery st))
  || List.existsb
       (fun tag => includes (toLowerCase tag) (toLowerCase (searchQuery st)))
       (tags scenario).

Definition filteredScenarios (st : State) : list SavedScenario :=
  List.filter (fun scenario => matchesCategory st scenario && matchesSearch st scenario)
              (scenarios st).

End Filter.

Definition with_scenarios (st : State) (l : list SavedScenario) : State :=
  {| scenarios := l; selectedCategory := selectedCategory st;
     searchQuery := searchQuery st; newScenarioName := newScenarioName st;
     selectedScenario := selectedScenario st |}.

(** [now] is [Date.now()]. *)
Definition handleSaveCurrentAsScenario (now : Z) (st : State) : State :=
  let newScenario :=
    {| id := Number_toString now;
       name := or_else (Some (newScenarioName st)) (js "New Scenario");
       description := js "Saved from current configuration";
       created := js "Just now"; modified := js "Just now";
       author := js "Current User"; category := optimization;
       status := draft; successRate := 0; runs := 0;
       averageDuration := js "0h 0m";
       tags := [js "custom"];
       parameters := {| objective := js "quality"; duration := js "12 hours";
                        speed := js "10x"; safetyLimits := true; autoStop := true |};
       expectedResults :=
         {| quality := {| value := js "94%"; change := js "+0%" |};
            energy := {| value := js "3.2 GJ/ton"; change := js "+0%" |};
            emissions := {| value := js "118 kg/ton"; change := js "+0%" |};
            cost := {| value := js "$82/ton"; change := js "+0%" |} |};
       lastResults := None |} in
  {| scenarios := newScenario :: scenarios st;
     selectedCategory := selectedCategory st;
     searchQuery := searchQuery st; newScenarioName := [];
     selectedScenario := selectedScenario st |}.

Definition handleDeleteScenario (target : list N) (st : State) : State :=
  with_scenarios st
    (List.filter (fun s => negb (str_eqb (id s) target)) (scenarios st)).

(** The copy: the spread of [scenario] with seven members overwritten. *)
Definition duplicate (now : Z) (scenario : SavedScenario) : SavedScenario :=
  {| id := Number_toString now;
     name := name scenario ++ js " (Copy)";
     description := description scenario;
     created := js "Just now";
     modified := js "Just now";
     author := author scenario;
     category := category scenario;
     status := draft;
     successRate := 0;
     runs := 0;
     averageDuration := averageDuration scenario;
     tags := tags scenario;
     parameters := parameters scenario;
     expectedResults := expectedResults scenario;
     lastResults := lastResults scenario |}.

Definition handleDuplicateScenario (now : Z) (scenario : SavedScenario)
    (st : State) : State :=
  let duplicated := duplicate now scenario in
  with_scenarios st (duplicated :: scenarios st).

(** *** The category tabs *)

Record CategoryTab := mkTab {
  key : list N;
  label : list N;
  count : nat
}.

(** [scenarios.filter(s => s.category === key).length]. *)
Definition count_category (k : list N) (l : list SavedScenario) : nat :=
  length (List.filter (fun s => str_eqb (category_key (category s)) k) l).

Definition categories (st : State) : list CategoryTab :=
  [ {| key := js "all"; label := js "All Scenarios";
       count := length (scenarios st) |};
    {| key := js "optimization"; label := js "Optimization";
       count := count_category (js "optimization") (scenarios st) |};
    {| key := js "emergency"; label := js "Emergency";
       count := count_category (js "emergency") (scenarios st) |};
    {| key := js "maintenance"; label := js "Maintenance";
       count := count_category (js "maintenance") (scenarios st) |};
    {| key := js "stress-test"; label := js "Stress Tests";
       count := count_category (js "stress-test") (scenarios st) |} ].

(** A click on a tab, and typing in the search box. *)
Definition setSelectedCategory (k : list N) (st : State) : State :=
  {| scenarios := scenarios st; selectedCategory := k;
     searchQuery := searchQuery st; newScenarioName := newScenarioName st;
     selectedScenario := selectedScenario st |}.

Definition setSearchQuery (q : list N) (st : State) : State :=
  {| scenarios := scenarios st; selectedCategory := selectedCategory st;
     searchQuery := q; newScenarioName := newScenarioName st;
     selectedScenario := selectedScenario st |}.

End Scenarios.

(** ** The projects tab of the profile modal *)

Module ProfileProjects.
Import JS.

Record Project := mkProject {
  name : list N;
  current : list N;
  target : list N;
  deadline : list N;
  status : list N;
  description : list N
}.

Definition initiatives : list Project :=
  [ {| name := js "Alternative Fuel Project"; current := js "47%";
       target := js "60%"; deadline := js "Q4 2024";
       status := js "in-progress";
       description := js "Increase alternative fuel usage to reduce carbon footprint" |};
    {| name := js "Digital Twin Implementation"; current := js "Phase 2";
       target := js "Phase 3"; deadline := js "Q1 2025";
       status := js "on-track";
       description := js "Complete digital twin integration for predictive maintenance" |};
    {| name := js "ISO 50001 Certification"; current := js "Under Audit";
       target := js "Certified"; deadline := js "Q2 2024";
       status := js "pending";
       description := js "Energy management system certification" |} ].

(** The empty form: every field blank but [status]. *)
Definition blank : Project :=
  {| name := []; current := []; target := []; deadline := [];
     status := js "pending"; description := [] |}.

Record State := mkState {
  projects : list Project;
  isAddingProject : bool;
  newProject : Project
}.

Definition initial : State :=
  {| projects := initiatives; isAddingProject := false; newProject := blank |}.

Definition handleAddProject (st : State) : State * list UI.Toast :=
  let p := newProject st in
  if truthy (name p) && truthy (target p) && truthy (deadline p) then
    ({| projects := projects st ++ [p];
        isAddingProject := false;
        newProject := blank |},
     [ {| UI.title := js "Project Added";
          UI.description := name p ++ js " has been added to your initiatives.";
          UI.variant := None |} ])
  else
    (st,
     [ {| UI.title := js "Missing Information";
          UI.description :=
            js "Please fill in all required fields (Name, Target, Deadline).";
          UI.variant := Some (js "destructive") |} ]).

Definition handleDeleteProject (index : nat) (st : State)
  : Api.settled (State * list UI.Toast) :=
  match List.nth_error (projects st) index with
  | None => Api.Rejected (Profile.undefined_property (js "name"))
  | Some project =>
      let projectName := name project in
      Api.Fulfilled
        ({| projects := Profile.filter_index index (projects st);
            isAddingProject := isAddingProject st;
            newProject := newProject st |},
         [ {| UI.title := js "Project Removed";
              UI.description :=
                projectName ++ js " has been removed from your initiatives.";
              UI.variant := None |} ])
  end.

End ProfileProjects.

(** ** The compliance tab of the profile modal *)

Module ProfileCompliance.
Import JS.

Record Certification := mkCertification {
  name : list N;
  type : list N;
  status : list N;
  expiry : list N;
  issuer : list N
}.

Definition certifications : list Certification :=
  [ {| name := js "ISO 9001:2015"; type := js "Quality Management";
       status := js "active"; expiry := js "Dec 2025";
       issuer := js "Bureau Veritas" |};
    {| name := js "ISO 14001:2015"; type := js "Environmental Management";
       status := js "active"; expiry := js "Oct 2025";
       issuer := js "T" ++ [220] ++ js "V S" ++ [220] ++ js "D" |};
    {| name := js "OHSAS 45001:2018"; type := js "Safety Management";
       status := js "active"; expiry := js "Jan 2026"; issuer := js "SGS" |};
    {| name := js "ISO 50001:2018"; type := js "Energy Management";
       status := js "in-progress"; expiry := js "Pending";
       issuer := js "DNV GL" |} ].

Definition blank : Certification :=
  {| name := []; type := []; status := js "in-progress"; expiry := [];
     issuer := [] |}.

Record State := mkState {
  compliance : list Certification;
  isAddingCert : bool;
  newCert : Certification
}.

Definition initial : State :=
  {| compliance := certifications; isAddingCert := false; newCert := blank |}.

Definition handleAddCertification (st : State) : State * list UI.Toast :=
  let c := newCert st in
  if truthy (name c) && truthy (type c) && truthy (issuer c) then
    ({| compliance := compliance st ++ [c];
        isAddingCert := false;
        newCert := blank |},
     [ {| UI.title := js "Certification Added";
          UI.description := name c ++ js " certification has been added.";
          UI.variant := None |} ])
  else
    (st,
     [ {| UI.title := js "Missing Information";
          UI.description :=
            js "Please fill in all required fields (Name, Type, Issuer).";
          UI.variant := Some (js "destructive") |} ]).


End ProfileCompliance.

(** ** The metrics tab of the profile modal

    The target field of a metric is edited in place:
    [newMetrics = [...metrics]; newMetrics[index].target = value].  The
    copy is of the array, not of the objects in it, and these objects
    are the ones of the module-level [operationalMetrics].  So the
    objects live in a heap and an array is a list of addresses. *)

Module ProfileMetrics.
Import JS.

Record Metric := mkMetric {
  metric : list N;
  value : list N;
  target : list N;
  percentage : Q;
  status : list N
}.

(** The four object literals of [operationalMetrics], in the order they
    are created when the module loads. *)
Definition operationalMetrics_objects : list Metric :=
  [ {| metric := js "Production (MTD)"; value := js "127,450 tons";
       target := js "130,000 tons"; percentage := 98 # 1;
       status := js "warning" |};
    {| metric := js "Energy Efficiency"; value := js "87.5%";
       target := js "85%"; percentage := 103 # 1; status := js "success" |};
    {| metric := js "Quality Score"; value := js "94.2%";
       target := js "92%"; percentage := 102 # 1; status := js "success" |};
    {| metric := js "Safety Days"; value := js "156 days";
       target := js "365 days"; percentage := 43 # 1; status := js "info" |} ].

(** The module-level array: the addresses of the four objects. *)
Definition operationalMetrics : list nat := [0; 1; 2; 3]%nat.

Record World := mkWorld {
  heap : list Metric;            (* the metric objects, by address *)
  metrics : list nat;            (* the [metrics] hook: an array of addresses *)
  isEditingMetrics : bool
}.

(** The module has loaded and the modal has mounted:
    [useState(operationalMetrics)]. *)
Definition mounted (h : list Metric) : World :=
  {| heap := h; metrics := operationalMetrics; isEditingMetrics := false |}.

Definition initial : World := mounted operationalMetrics_objects.




(** The "Edit Targets" / "Save Targets" button. *)
Definition toggleEditing (w : World) : World :=
  {| heap := heap w; metrics := metrics w;
     isEditingMetrics := negb (isEditingMetrics w) |}.




End ProfileMetrics.

(** ** The API demo card ([components/dashboard/APIDemo.tsx]) *)

Module APIDemo.
Import JS.

(** The hooks the status half of the card uses. *)
Record State := mkState {
  systemStatus : option Api.jsvalue;     (* [null] until a fetch succeeds *)
  isLoadingStatus : bool
}.

Definition initial : State :=
  {| systemStatus := None; isLoadingStatus := false |}.

Inductive action :=
| setSystemStatus (v : Api.jsvalue)
| setIsLoadingStatus (b : bool).

Definition apply (st : State) (a : action) : State :=
  match a with
  | setSystemStatus v =>
      {| systemStatus := Some v; isLoadingStatus := isLoadingStatus st |}
  | setIsLoadingStatus b =>
      {| systemStatus := systemStatus st; isLoadingStatus := b |}
  end.

Definition commit (acts : list action) (st : State) : State :=
  List.fold_left apply acts st.

Inductive effect :=
| Api_event (e : Api.event)
| console_error (label : list N)
| toast (t : UI.Toast).

Definition updated_toast : UI.Toast :=
  {| UI.title := js "System Status Updated";
     UI.description :=
       js "Retrieved latest system information from CementOS API.";
     UI.variant := None |}.

Definition failed_toast : UI.Toast :=
  {| UI.title := js "Status Fetch Failed";
     UI.description :=
       js "Unable to retrieve system status from CementOS API.";
     UI.variant := Some (js "destructive") |}.

(** [fetchSystemStatus]: its effects and its setter calls, in order. *)
Definition fetchSystemStatus (net : Api.Network Api.jsvalue)
  : list effect * list action :=
  let '(ev, r) := Api.getSystemStatus net in
  match r with
  | Api.Fulfilled status =>
      (List.map Api_event ev ++ [toast updated_toast],
       [setIsLoadingStatus true; setSystemStatus status;
        setIsLoadingStatus false])
  | Api.Rejected _ =>
      (List.map Api_event ev
         ++ [console_error (js "Status fetch failed:"); toast failed_toast],
       [setIsLoadingStatus true; setIsLoadingStatus false])
  end.

End APIDemo.

(** * Properties *)

(** ** Strings *)

Section StringFacts.
Import JS.

Lemma truthy_nonempty s : truthy s = true <-> s <> [].
Proof. destruct s; simpl; split; congruence. Qed.

Lemma includes_empty s : includes s [] = true.
Proof. destruct s; reflexivity. Qed.

Lemma trimStart_nil_iff s :
  trimStart s = [] <-> List.forallb is_whitespace s = true.
Proof.
  induction s as [|c s IH]; simpl; [tauto|].
  destruct (is_whitespace c); simpl; [exact IH|].
  split; discriminate.
Qed.

Lemma trimStart_no_leading s c r :
  trimStart s = c :: r -> is_whitespace c = false.
Proof.
  induction s as [|d s IH]; simpl; [discriminate|].
  destruct (is_whitespace d) eqn:E; [exact IH|].
  intros [= <- _]. exact E.
Qed.

(** A string trims to the empty string exactly when every code unit of
    it is white space. *)
Lemma trim_nil_iff s :
  trim s = [] <-> List.forallb is_whitespace s = true.
Proof.
  unfold trim, trimEnd. rewrite <- trimStart_nil_iff.
  split; [|intros ->; reflexivity].
  intros H. destruct (trimStart s) as [|c r] eqn:E; [reflexivity|].
  exfalso.
  apply (f_equal (@List.rev N)) in H.
  rewrite List.rev_involutive in H. simpl in H.
  apply trimStart_nil_iff in H.
  rewrite List.forallb_app in H. apply andb_prop in H as [_ H].
  simpl in H. rewrite Bool.andb_true_r in H.
  apply trimStart_no_leading in E. congruence.
Qed.

End StringFacts.

(** ** The API service layer *)

Section ApiFacts.
Import JS Api.

(** Every call of [makeRequest] issues exactly one [fetch], first, for
    the request built from its arguments. *)
Lemma makeRequest_events {T} (net : Network T) endpoint options :
  exists rest,
    fst (makeRequest net endpoint options)
      = EvFetch (finalOptions (BASE_URL ++ endpoint) options) :: rest
    /\ List.Forall not_fetch rest.
Proof.
  unfold makeRequest.
  destruct (net _) as [resp|e]; [|eexists; split; [reflexivity|repeat constructor]].
  destruct (negb (ok resp)); [eexists; split; [reflexivity|repeat constructor]|].
  destruct (json resp); eexists; split; try reflexivity; repeat constructor.
Qed.

Lemma fresh_session_id_nonempty r36 : fresh_session_id r36 <> [].
Proof. unfold fresh_session_id. discriminate. Qed.



(** A page load over storage that already holds an identifier changes
    nothing. *)
Lemma reload_fixpoint r36 b :
  session_stored b -> load r36 (localStorage b) = b.
Proof.
  intros [Hs Hne]. destruct b as [ls [sid]]. simpl in *.
  unfold load, getSessionId. rewrite Hs. simpl.
  destruct sid; [congruence|reflexivity].
Qed.

Lemma resetSession_session_stored r36 b : session_stored (resetSession r36 b).
Proof.
  unfold resetSession, session_stored. simpl.
  rewrite lookup_insert_eq. split; [reflexivity|apply fresh_session_id_nonempty].
Qed.








Lemma hex_value_digit x : x < 16 -> hex_value (hex_digit x) = Some x.
Proof.
  intros H. unfold hex_digit, hex_value.
  destruct (N.ltb_spec x 10).
  - replace ((48 <=? 48 + x) && (48 + x <=? 57)) with true
      by (symmetry; apply andb_true_intro; split; apply N.leb_le; lia).
    f_equal. lia.
  - replace ((48 <=? 87 + x) && (87 + x <=? 57)) with false
      by (symmetry; apply Bool.andb_false_iff; right; apply N.leb_gt; lia).
    replace ((97 <=? 87 + x) && (87 + x <=? 102)) with true
      by (symmetry; apply andb_true_intro; split; apply N.leb_le; lia).
    f_equal. lia.
Qed.

Lemma hex4_escape c :
  c < 65536 ->
  hex4 (hex_digit ((c / 4096) mod 16)) (hex_digit ((c / 256) mod 16))
       (hex_digit ((c / 16) mod 16)) (hex_digit (c mod 16)) = Some c.
Proof.
  intros H. unfold hex4.
  rewrite !hex_value_digit by (apply N.mod_lt; discriminate).
  f_equal.
  pose proof (N.div_mod c 16 ltac:(discriminate)).
  pose proof (N.div_mod (c / 16) 16 ltac:(discriminate)).
  pose proof (N.div_mod (c / 16 / 16) 16 ltac:(discriminate)).
  rewrite !N.Div0.div_div in *.
  change (16 * 16) with 256 in *. change (256 * 16) with 4096 in *.
  assert (c / 4096 < 16) by (apply N.Div0.div_lt_upper_bound; lia).
  rewrite (N.mod_small (c / 4096) 16) by assumption.
  pose proof (N.div_mod (c / 4096) 16 ltac:(discriminate)).
  lia.
Qed.

Lemma unquote_plain c t s rest :
  c <> 34 -> c <> 92 ->
  unquote_units t = Some (s, rest) ->
  unquote_units (c :: t) = Some (c :: s, rest).
Proof.
  intros H1 H2 Ht. cbn [unquote_units].
  apply N.eqb_neq in H1, H2. rewrite H1, H2, Ht. reflexivity.
Qed.

Lemma unquote_short e u t s rest :
  short_escape e = Some u -> e <> 117 ->
  unquote_units t = Some (s, rest) ->
  unquote_units (92 :: e :: t) = Some (u :: s, rest).
Proof.
  intros He Hu Ht. cbn [unquote_units].
  change (92 =? 34) with false. change (92 =? 92) with true. cbv iota.
  apply N.eqb_neq in Hu. rewrite Hu, He, Ht. reflexivity.
Qed.

Lemma unquote_unicode c t s rest :
  c < 65536 ->
  unquote_units t = Some (s, rest) ->
  unquote_units (unicode_escape c ++ t) = Some (c :: s, rest).
Proof.
  intros Hc Ht. unfold unicode_escape. cbn [app unquote_units].
  change (92 =? 34) with false. change (92 =? 92) with true.
  change (117 =? 117) with true. cbv iota.
  rewrite (hex4_escape c Hc), Ht. reflexivity.
Qed.

(** The two kinds of escape in the proof below. *)
Ltac short_escape_case IHs :=
  rewrite <- app_assoc; apply unquote_short;
  [reflexivity | discriminate | apply IHs].

Ltac unicode_escape_case IHs :=
  rewrite <- app_assoc; apply unquote_unicode; [lia | apply IHs].

Lemma unquote_quote_units n : forall s rest,
  (length s <= n)%nat ->
  unquote_units (quote_units s ++ 34 :: rest) = Some (s, rest).
Proof.
  induction n as [|n IH]; intros [|c s] rest Hlen; simpl in Hlen;
    try reflexivity; try lia.
  assert (IHs : forall rest,
             unquote_units (quote_units s ++ 34 :: rest) = Some (s, rest))
    by (intros; apply IH; lia).
  cbn [quote_units].
  destruct (N.eqb_spec c 8) as [->|H8]; [short_escape_case IHs|].
  destruct (N.eqb_spec c 9) as [->|H9]; [short_escape_case IHs|].
  destruct (N.eqb_spec c 10) as [->|H10]; [short_escape_case IHs|].
  destruct (N.eqb_spec c 12) as [->|H12]; [short_escape_case IHs|].
  destruct (N.eqb_spec c 13) as [->|H13]; [short_escape_case IHs|].
  destruct (N.eqb_spec c 34) as [->|H34]; [short_escape_case IHs|].
  destruct (N.eqb_spec c 92) as [->|H92]; [short_escape_case IHs|].
  destruct (N.ltb_spec c 32) as [H32|H32]; [unicode_escape_case IHs|].
  unfold is_high_surrogate, is_low_surrogate.
  destruct (N.leb_spec 55296 c) as [Hh1|Hh1];
    destruct (N.leb_spec c 56319) as [Hh2|Hh2]; cbn [andb].
  - (* a leading surrogate: kept with the trailing one after it, escaped
       when it stands alone *)
    destruct s as [|d s'].
    + cbn [app]. rewrite <- (app_nil_r (unicode_escape c)), <- app_assoc.
      apply unquote_unicode; [lia|reflexivity].
    + destruct (N.leb_spec 56320 d) as [Hl1|Hl1];
        destruct (N.leb_spec d 57343) as [Hl2|Hl2]; cbn [andb];
        try unicode_escape_case IHs.
      cbn [app]. apply unquote_plain; [lia|lia|].
      apply unquote_plain; [lia|lia|].
      apply IH. simpl in Hlen. lia.
  - (* above the leading surrogates: a trailing surrogate is escaped *)
    destruct (N.leb_spec 56320 c); destruct (N.leb_spec c 57343); cbn [andb];
      try unicode_escape_case IHs;
      (cbn [app]; apply unquote_plain; [assumption|assumption|apply IHs]).
  - (* below the surrogates: the code unit itself *)
    destruct (N.leb_spec 56320 c); destruct (N.leb_spec c 57343); cbn [andb];
      try unicode_escape_case IHs;
      (cbn [app]; apply unquote_plain; [assumption|assumption|apply IHs]).
  - lia.
Qed.

Lemma unquote_JSON_quote s rest :
  unquote (JSON_quote s ++ rest) = Some (s, rest).
Proof.
  unfold JSON_quote, unquote. cbn [app]. change (34 =? 34) with true. cbv iota.
  rewrite <- app_assoc. apply (unquote_quote_units (length s)). lia.
Qed.

(** The text of a chat body reads back as the two strings it was built
    from. *)
Lemma read_chat_body_stringify message session :
  read_chat_body (JSON_stringify (chat_body message session))
    = Some (message, session).
Proof.
  unfold read_chat_body, chat_body. cbn [JSON_stringify].
  cbn [app expect]. rewrite N.eqb_refl. cbn [mbind option_bind].
  do 4 (rewrite <- ?app_assoc, unquote_JSON_quote;
        cbn [mbind option_bind app expect];
        rewrite N.eqb_refl; cbn [mbind option_bind]).
  unfold str_eqb. rewrite !bool_decide_eq_true_2 by reflexivity.
  reflexivity.
Qed.

Lemma sendMessage_events this (net : Network ChatResponse) message custom :
  exists rest,
    fst (sendMessage this net message custom)
      = EvFetch (chat_request message (or_else custom (sessionId this))) :: rest
    /\ List.Forall not_fetch rest.
Proof. unfold sendMessage. apply makeRequest_events. Qed.



(** C4, amended.  [makeRequest] raises exactly when the fetch throws,
    when the status is outside 200..299, or when the status is inside
    that range and reading the body as JSON fails; it returns [data]
    exactly when the status is inside the range and the body parses to
    [data]. *)
Theorem makeRequest_raises_iff {T} (net : Network T)
    (endpoint : list N) (options : RequestInit) :
  let request := finalOptions (BASE_URL ++ endpoint) options in
  (raises (makeRequest net endpoint options)
     <-> fetch_throws net request \/ status_not_2xx net request
         \/ body_not_json net request)
  /\ (forall data,
        snd (makeRequest net endpoint options) = Fulfilled data
          <-> exists resp,
                net request = Fulfilled resp /\ ok resp = true
                /\ json resp = Fulfilled data).
Proof.
  intros request.
  unfold raises, fetch_throws, status_not_2xx, body_not_json, makeRequest.
  fold request.
  destruct (net request) as [resp|e] eqn:En.
  - destruct (ok resp) eqn:Eo; simpl.
    + destruct (json resp) as [data|e] eqn:Ej; simpl.
      * split.
        -- split.
           ++ intros [e He]. discriminate.
           ++ intros [[e He]|[(r & Hr & Ho)|(r & e & Hr & Ho & Hj)]];
                [discriminate| |]; injection Hr as <-; congruence.
        -- intros d. split.
           ++ intros [= <-]. exists resp. auto.
           ++ intros (r & Hr & _ & Hj). injection Hr as <-. congruence.
      * split.
        -- split; [|eauto].
           intros _. right. right. exists resp, e. auto.
        -- intros d. split; [discriminate|].
           intros (r & Hr & _ & Hj). injection Hr as <-. congruence.
    + split.
      * split; [|eauto].
        intros _. right. left. exists resp. auto.
      * intros d. split; [discriminate|].
        intros (r & Hr & Ho & _). injection Hr as <-. congruence.
  - split.
    + split; [|eauto]. intros _. left. eauto.
    + intros d. split; [discriminate|].
      intros (r & Hr & _). discriminate.
Qed.

(** C4 as stated fails: a 204 answer to [DELETE /sessions/:id] has no
    body, reading it as JSON fails, and [makeRequest] raises although
    the fetch did not throw and the status is 2xx. *)
Lemma makeRequest_raises_on_2xx :
  let net : Network jsvalue :=
    fun _ => Fulfilled
               {| status := 204;
                  json := Rejected (mkError (js "SyntaxError")
                                            (js "Unexpected end of JSON input")) |} in
  let endpoint := js "/sessions/cemenos_4fzyo82mvyr" in
  let options := {| init_method := Some (js "DELETE");
                    init_headers := None; init_body := None |} in
  let request := finalOptions (BASE_URL ++ endpoint) options in
  ~ (raises (makeRequest net endpoint options)
       <-> fetch_throws net request \/ status_not_2xx net request).
Proof.
  intros net endpoint options request [H _].
  destruct H as [[e He]|(resp & Hr & Ho)].
  - eexists. reflexivity.
  - discriminate.
  - injection Hr as <-. discriminate.
Qed.

(** C6.  Every [sendMessage] issues one fetch and no other: a [POST] to
    [BASE_URL/chat] whose body is the JSON text of an object with
    exactly the two members [message], the text given, and
    [session_id], the custom identifier when one is given and not empty
    and the client's identifier otherwise; read back, the body gives
    these two strings. *)
Theorem sendMessage_posts_message_and_session
    (this : CementOSAPI) (net : Network ChatResponse)
    (message : list N) (customSessionId : option (list N)) :
  let session :=
    match customSessionId with
    | Some (c :: s) => c :: s
    | _ => sessionId this
    end in
  let body := JObj [(js "message", JStr message);
                    (js "session_id", JStr session)] in
  exists rest,
    fst (sendMessage this net message customSessionId)
      = EvFetch {| req_url := BASE_URL ++ js "/chat";
                   req_method := Some (js "POST");
                   req_headers := [(js "Content-Type", js "application/json")];
                   req_body := Some (JSON_stringify body) |} :: rest
    /\ List.Forall not_fetch rest
    /\ JSON_stringify body
         = [123] ++ JSON_quote (js "message") ++ [58] ++ JSON_quote message
             ++ [44] ++ JSON_quote (js "session_id") ++ [58]
             ++ JSON_quote session ++ [125]
    /\ read_chat_body (JSON_stringify body) = Some (message, session).
Proof.
  intros session body.
  destruct (sendMessage_events this net message customSessionId)
    as (rest & He & Hr).
  exists rest. split; [|split; [exact Hr|split]].
  - rewrite He. unfold chat_request, body, session, or_else.
    destruct customSessionId as [[|c s]|]; reflexivity.
  - unfold body. cbn [JSON_stringify].
    repeat rewrite <- app_assoc. reflexivity.
  - apply read_chat_body_stringify.
Qed.

(** A message with a quotation mark, a line break and a control
    character, sent with the stored identifier. *)
Example chat_body_text :
  JSON_stringify (chat_body (js "say " ++ [34] ++ js "hi" ++ [34; 10; 1])
                            (js "cemenos_4fzyo82mvyr"))
    = [123; 34] ++ js "message" ++ [34; 58; 34]
        ++ js "say " ++ [92; 34] ++ js "hi" ++ [92; 34]
        ++ [92] ++ js "n" ++ [92] ++ js "u0001" ++ [34; 44; 34]
        ++ js "session_id" ++ [34; 58; 34] ++ js "cemenos_4fzyo82mvyr"
        ++ [34; 125].
Proof. vm_compute. reflexivity. Qed.

End ApiFacts.

(** ** The chat widget *)

Section ChatbotFacts.
Import JS Chatbot.

Lemma guard_passes st :
  trim (draft st) <> [] -> isLoading st = false ->
  negb (truthy (trim (draft st))) || isLoading st = false.
Proof.
  intros Ht ->. destruct (trim (draft st)); [congruence|reflexivity].
Qed.



(** C8.  When the input is empty or all white space, or a send is in
    flight, [handleSend] returns at once: it calls no setter, has no
    effect (so issues no request), and the state, with [chatHistory],
    [isLoading] and the input text, is what it was. *)
Theorem handleSend_guard (this : Api.CementOSAPI) (st : State) (env : Env) :
  List.forallb is_whitespace (draft st) = true \/ isLoading st = true ->
  let r := handleSend this st env in
  immediate r = [] /\ deferred r = [] /\ effects r = []
  /\ List.existsb is_fetch (effects r) = false
  /\ settle r st = st
  /\ chatHistory (settle r st) = chatHistory st
  /\ isLoading (settle r st) = isLoading st
  /\ draft (settle r st) = draft st.
Proof.
  intros H r.
  assert (Hr : r = nothing).
  { unfold r, handleSend. destruct H as [H| ->].
    - apply trim_nil_iff in H. rewrite H. reflexivity.
    - rewrite Bool.orb_true_r. reflexivity. }
  rewrite Hr. repeat split.
Qed.

Lemma handleSend_guard_witness :
  let this := {| Api.sessionId := js "cemenos_4fzyo82mvyr" |} in
  let st := {| isOpen := true; isMinimized := false; draft := [32; 9; 160];
               isLoading := false; isConnected := true;
               chatHistory := chatHistory (initial (js "10:15:00")) |} in
  let env := {| time_sent := js "10:16:00";
                net := fun _ => Api.Rejected (Api.mkError (js "TypeError") (js "Failed to fetch"));
                toLocaleTime := fun s => s;
                random := {| numer := 1; denom := 2 |};
                time_reply := js "10:16:01" |} in
  settle (handleSend this st env) st = st.
Proof.
  intros this st env.
  exact (proj1 (proj2 (proj2 (proj2 (proj2
    (handleSend_guard this st env (or_introl eq_refl))))))).
Defined.









End ChatbotFacts.

(** ** The API status indicator *)

Section StatusIndicatorFacts.
Import JS StatusIndicator.

Lemma succ_div_mod_poll n :
  (N.succ n mod POLL_MS = 0 /\ N.succ n / POLL_MS = n / POLL_MS + 1
   /\ N.succ n = POLL_MS * (n / POLL_MS + 1))
  \/ (N.succ n mod POLL_MS <> 0 /\ N.succ n / POLL_MS = n / POLL_MS
      /\ N.succ n <> POLL_MS * (n / POLL_MS + 1)).
Proof.
  unfold POLL_MS.
  pose proof (N.div_mod n 30000 ltac:(discriminate)) as Hn.
  pose proof (N.mod_lt n 30000 ltac:(discriminate)) as Hr.
  set (q := n / 30000) in *. set (r := n mod 30000) in *.
  destruct (N.eq_dec (r + 1) 30000) as [E|E].
  - left.
    assert (H : N.succ n = 30000 * (q + 1) + 0) by lia.
    split; [|split].
    + symmetry. apply (N.mod_unique _ _ (q + 1) 0); [lia|exact H].
    + symmetry. apply (N.div_unique _ _ (q + 1) 0); [lia|exact H].
    + lia.
  - right.
    assert (H : N.succ n = 30000 * q + (r + 1)) by lia.
    split; [|split].
    + rewrite <- (N.mod_unique _ _ q (r + 1)); [lia|lia|exact H].
    + symmetry. apply (N.div_unique _ _ q (r + 1)); [lia|exact H].
    + lia.
Qed.

Lemma succ_div_poll n :
  N.succ n / POLL_MS
    = if N.succ n mod POLL_MS =? 0 then n / POLL_MS + 1 else n / POLL_MS.
Proof.
  destruct (succ_div_mod_poll n) as [(Hm & Hd & _)|(Hm & Hd & _)]; rewrite Hd.
  - rewrite Hm. reflexivity.
  - apply N.eqb_neq in Hm. rewrite Hm. reflexivity.
Qed.

Lemma poll_times_succ t0 n :
  poll_times t0 (N.succ n)
    = if N.succ n mod POLL_MS =? 0
      then poll_times t0 n ++ [(t0 + N.succ n, checkConnection_cb)]
      else poll_times t0 n.
Proof.
  unfold poll_times.
  destruct (succ_div_mod_poll n) as [(Hm & Hd & He)|(Hm & Hd & _)]; rewrite Hd.
  - rewrite Hm. cbn [N.eqb].
    replace (N.to_nat (n / POLL_MS + 1)) with (S (N.to_nat (n / POLL_MS))) by lia.
    rewrite (List.seq_S (S _) 0), List.map_app. cbn [List.map Nat.add].
    do 3 f_equal. rewrite He. f_equal. lia.
  - apply N.eqb_neq in Hm. rewrite Hm. reflexivity.
Qed.

(** The timer table of a mounted component, [n] milliseconds on. *)
Lemma elapse_mounted t0 i0 n :
  elapse n (snd (mount (idle t0 i0)))
    = {| now := t0 + n; next_id := i0 + 1;
         intervals := [ {| id := i0; handler := checkConnection_cb;
                           delay := POLL_MS;
                           due := t0 + POLL_MS * (n / POLL_MS + 1) |} ];
         calls := poll_times t0 n |}.
Proof.
  unfold elapse. induction n as [|n IH] using N.peano_ind.
  - cbn -[POLL_MS N.mul N.div N.add]. unfold poll_times.
    change (0 / POLL_MS) with 0. cbn -[POLL_MS N.mul N.add].
    rewrite N.mul_0_r, !N.add_0_r, N.mul_1_r. reflexivity.
  - rewrite N.iter_succ, IH. unfold tick. cbn [now next_id intervals calls].
    cbn [List.filter List.map due id handler delay].
    rewrite poll_times_succ.
    destruct (succ_div_mod_poll n) as [(Hm & Hd & He)|(Hm & Hd & He)]; rewrite Hd.
    + replace (t0 + POLL_MS * (n / POLL_MS + 1) =? t0 + n + 1) with true
        by (symmetry; apply N.eqb_eq; lia).
      rewrite Hm. cbn [N.eqb List.map handler].
      f_equal; [lia| |].
      * do 2 f_equal. lia.
      * do 3 f_equal. lia.
    + replace (t0 + POLL_MS * (n / POLL_MS + 1) =? t0 + n + 1) with false
        by (symmetry; apply N.eqb_neq; lia).
      apply N.eqb_neq in Hm. rewrite Hm.
      cbn [List.map]. rewrite app_nil_r. f_equal. lia.
Qed.

Lemma tick_no_intervals tm :
  intervals tm = [] ->
  intervals (tick tm) = [] /\ calls (tick tm) = calls tm.
Proof.
  intros H. unfold tick. cbn [intervals calls]. rewrite H.
  split; [reflexivity|apply app_nil_r].
Qed.

Lemma elapse_no_intervals n tm :
  intervals tm = [] ->
  intervals (elapse n tm) = [] /\ calls (elapse n tm) = calls tm.
Proof.
  intros H. unfold elapse. induction n as [|n [IHi IHc]] using N.peano_ind.
  - split; [exact H|reflexivity].
  - rewrite N.iter_succ.
    destruct (tick_no_intervals _ IHi) as [Hi Hc].
    split; [exact Hi|congruence].
Qed.

(** C7.  Mounting the indicator invokes the health check once, at once,
    and registers one interval timer for it with a delay of 30000 ms;
    while the component stays mounted the check runs again every 30000
    ms ([poll_times]); unmounting clears that timer, after which no
    check runs however long the clock goes on. *)
Theorem health_check_every_30_seconds (t0 i0 n m : N) :
  let mounted := mount (idle t0 i0) in
  let running := elapse n (snd mounted) in
  let stopped := elapse m (unmount (fst mounted) running) in
  calls (snd mounted) = [(t0, checkConnection_cb)]
  /\ intervals (snd mounted)
       = [ {| id := fst mounted; handler := checkConnection_cb;
              delay := 30000; due := t0 + 30000 |} ]
  /\ calls running
       = List.map (fun k => (t0 + 30000 * N.of_nat k, checkConnection_cb))
                  (List.seq 0 (S (N.to_nat (n / 30000))))
  /\ intervals (unmount (fst mounted) running) = []
  /\ intervals stopped = []
  /\ calls stopped = calls running
  /\ (forall net time, exists rest,
        fst (run_callback checkConnection_cb net time)
          = Api.EvFetch
              {| Api.req_url := Api.BASE_URL ++ js "/health";
                 Api.req_method := None;
                 Api.req_headers := [(js "Content-Type", js "application/json")];
                 Api.req_body := None |} :: rest
        /\ List.Forall Api.not_fetch rest).
Proof.
  intros mounted running stopped.
  assert (Hrun : running = _) by apply elapse_mounted.
  assert (Hun : intervals (unmount (fst mounted) running) = []).
  { rewrite Hrun. cbn. rewrite N.eqb_refl. reflexivity. }
  destruct (elapse_no_intervals m _ Hun) as [Hi Hc].
  repeat split.
  - rewrite Hrun. reflexivity.
  - exact Hun.
  - exact Hi.
  - unfold stopped. rewrite Hc. reflexivity.
  - intros net time. unfold run_callback, checkConnection, Api.healthCheck.
    destruct (makeRequest_events net (js "/health") Api.no_options)
      as (rest & He & Hr).
    destruct (Api.makeRequest net (js "/health") Api.no_options) as [ev r].
    exists rest. split; [exact He|exact Hr].
Qed.

(** A component mounted at time 1000 and unmounted 61 seconds later has
    checked three times; a second on there has been no further check. *)
Example sixty_one_seconds_mounted :
  let mounted := mount (idle 1000 7) in
  let running := elapse 61000 (snd mounted) in
  calls running
    = [(1000, checkConnection_cb); (31000, checkConnection_cb);
       (61000, checkConnection_cb)]
  /\ calls (elapse 1000 (unmount (fst mounted) running)) = calls running.
Proof. vm_compute. split; reflexivity. Qed.

End StatusIndicatorFacts.

(** ** The team form of the profile modal *)

Section ProfileFacts.
Import JS Profile.

(** C5.  With any of name, role or email empty, [handleAddMember] shows
    the destructive "Missing Information" toast and nothing else
    changes, the team list included; with all three non-empty it
    appends exactly the new member as the last of the list, clears the
    six form fields and closes the form. *)
Theorem handleAddMember_validates (st : State) :
  let m := newMember st in
  let st' := fst (handleAddMember st) in
  let toasts := snd (handleAddMember st) in
  (name m = [] \/ role m = [] \/ email m = [] ->
     st' = st
     /\ teamMembers st' = teamMembers st
     /\ toasts = [ {| UI.title := js "Missing Information";
                      UI.description :=
                        js "Please fill in all required fields (Name, Role, Email).";
                      UI.variant := Some (js "destructive") |} ])
  /\ (name m <> [] /\ role m <> [] /\ email m <> [] ->
        teamMembers st' = teamMembers st ++ [m]
        /\ newMember st' = blank
        /\ isAddingMember st' = false
        /\ toasts = [ {| UI.title := js "Team Member Added";
                         UI.description :=
                           name m ++ js " has been successfully added to the management team.";
                         UI.variant := None |} ]).
Proof.
  intros m st' toasts. unfold st', toasts, handleAddMember. fold m.
  split.
  - intros H.
    assert (E : truthy (name m) && truthy (role m) && truthy (email m) = false).
    { destruct H as [-> | [-> | ->]]; simpl;
        rewrite ?Bool.andb_false_r; reflexivity. }
    rewrite E. repeat split.
  - intros (Hn & Hr & He).
    apply truthy_nonempty in Hn, Hr, He. rewrite Hn, Hr, He.
    repeat split.
Qed.

(** The theorem at two forms: one without an email, one complete. *)
Lemma handleAddMember_validates_witness :
  let incomplete :=
    {| teamMembers := managementTeam; isAddingMember := true;
       newMember := {| name := js "Kiran Rao"; role := js "Shift Lead";
                       email := []; phone := js "+91-9876543214";
                       experience := js "7 years"; department := js "Operations" |} |} in
  let complete :=
    {| teamMembers := managementTeam; isAddingMember := true;
       newMember := {| name := js "Kiran Rao"; role := js "Shift Lead";
                       email := js "kiran.r@plant.com"; phone := [];
                       experience := []; department := [] |} |} in
  teamMembers (fst (handleAddMember incomplete)) = managementTeam
  /\ teamMembers (fst (handleAddMember complete))
       = managementTeam ++ [newMember complete].
Proof.
  intros incomplete complete. split.
  - refine (proj1 (proj2 (proj1 (handleAddMember_validates incomplete) _))).
    right. right. reflexivity.
  - refine (proj1 (proj2 (handleAddMember_validates complete) _)).
    repeat split; discriminate.
Defined.

End ProfileFacts.

(** ** The saved-scenarios manager *)

Section ScenariosFacts.
Import JS Scenarios.

Lemma filter_all_true {A} (f : A -> bool) (l : list A) :
  (forall x, f x = true) -> List.filter f l = l.
Proof.
  intros H. induction l as [|x l IH]; simpl; [reflexivity|].
  rewrite H, IH. reflexivity.
Qed.

(** C9.  With the category ['all'] selected and an empty search query
    the filtered list is the list of scenarios itself, element for
    element and in the same order.  (Lower-casing the empty string
    gives the empty string.) *)
Theorem filteredScenarios_all_empty_query
    (toLowerCase : list N -> list N) (st : State) :
  toLowerCase [] = [] ->
  selectedCategory st = js "all" ->
  searchQuery st = [] ->
  filteredScenarios toLowerCase st = scenarios st.
Proof.
  intros Hlow Hcat Hq. unfold filteredScenarios.
  apply filter_all_true. intros scenario.
  unfold matchesCategory, matchesSearch.
  rewrite Hcat, Hq, Hlow, includes_empty. reflexivity.
Qed.

Lemma filteredScenarios_all_empty_query_witness :
  filteredScenarios toLowerCase_ascii initial = initial_scenarios.
Proof.
  apply (filteredScenarios_all_empty_query toLowerCase_ascii initial);
    reflexivity.
Defined.

(** C10.  Duplicating a scenario [s] of the list puts one new scenario
    in front of the list: its name is [s]'s followed by [' (Copy)'], its
    status is draft, its runs and success rate are 0, and its
    description, author, category, tags, parameters and expected results
    are those of [s]; the scenarios that were there, [s] among them,
    follow unchanged and in the same order. *)
Theorem handleDuplicateScenario_prepends_copy
    (now : Z) (s : SavedScenario) (st : State) :
  List.In s (scenarios st) ->
  exists d,
    scenarios (handleDuplicateScenario now s st) = d :: scenarios st
    /\ name d = name s ++ js " (Copy)"
    /\ status d = draft
    /\ runs d = 0%Q
    /\ successRate d = 0%Q
    /\ description d = description s
    /\ author d = author s
    /\ category d = category s
    /\ tags d = tags s
    /\ parameters d = parameters s
    /\ expectedResults d = expectedResults s
    /\ List.In s (scenarios (handleDuplicateScenario now s st))
    /\ (forall i x, scenarios st !! i = Some x ->
          scenarios (handleDuplicateScenario now s st) !! S i = Some x).
Proof.
  intros Hin. exists (duplicate now s).
  repeat split.
  - right. exact Hin.
  - intros i x H. exact H.
Qed.

Lemma handleDuplicateScenario_prepends_copy_witness :
  exists d,
    scenarios (handleDuplicateScenario 1705329000000 green_cement_protocol initial)
      = d :: scenarios initial
    /\ name d = name green_cement_protocol ++ js " (Copy)"
    /\ status d = draft
    /\ runs d = 0%Q
    /\ successRate d = 0%Q
    /\ description d = description green_cement_protocol
    /\ author d = author green_cement_protocol
    /\ category d = category green_cement_protocol
    /\ tags d = tags green_cement_protocol
    /\ parameters d = parameters green_cement_protocol
    /\ expectedResults d = expectedResults green_cement_protocol
    /\ List.In green_cement_protocol
         (scenarios (handleDuplicateScenario 1705329000000 green_cement_protocol initial))
    /\ (forall i x, scenarios initial !! i = Some x ->
          scenarios (handleDuplicateScenario 1705329000000 green_cement_protocol initial)
            !! S i = Some x).
Proof.
  apply (handleDuplicateScenario_prepends_copy
           1705329000000 green_cement_protocol initial).
  right. left. reflexivity.
Defined.

End ScenariosFacts.

(** * Further properties of the code *)

#[local] Arguments JS.js : simpl never.

(** ** The API service layer, continued *)

Section ApiMore.
Import JS Api.

(** [makeRequest] writes its one line to the console exactly when it
    raises: the events of a failed call are the fetch and the log line,
    those of a successful call the fetch alone. *)
Theorem makeRequest_logs_iff_raises {T} (net : Network T)
    (endpoint : list N) (options : RequestInit) :
  let request := finalOptions (BASE_URL ++ endpoint) options in
  let r := makeRequest net endpoint options in
  (raises r
     <-> fst r = [EvFetch request; EvConsoleError (js "API Request failed:")])
  /\ ((exists data, snd r = Fulfilled data) <-> fst r = [EvFetch request]).
Proof.
  intros request r. unfold r, raises, makeRequest. fold request.
  destruct (net request) as [resp|e].
  - destruct (negb (ok resp)).
    + simpl. split; split; eauto; intros H; try discriminate.
      destruct H; discriminate.
    + destruct (json resp) as [data|e]; simpl;
        split; split; eauto; intros H; try discriminate;
        destruct H; discriminate.
  - simpl. split; split; eauto; intros H; try discriminate.
    destruct H; discriminate.
Qed.

Lemma set_key_keeps_keys k v o k' :
  List.In k' (List.map fst o) -> List.In k' (List.map fst (set_key k v o)).
Proof.
  induction o as [|[k0 v0] o IH]; simpl; [tauto|].
  intros [<-|Hin].
  - unfold str_eqb. case_bool_decide as E; simpl; [left; exact E|left; reflexivity].
  - destruct (str_eqb k k0); simpl; [right; exact Hin|right; apply IH, Hin].
Qed.

Lemma spread_keeps_keys extra : forall base k',
  List.In k' (List.map fst base) -> List.In k' (List.map fst (spread base extra)).
Proof.
  unfold spread. induction extra as [|[k v] extra IH]; intros base k' Hin;
    simpl; [exact Hin|].
  apply IH, set_key_keeps_keys, Hin.
Qed.

(** Headers given by a caller are not merged with the default: the
    request goes out with exactly the caller's headers, although the
    merged headers, which do name [Content-Type], were built.  With no
    headers given the request has the one default header. *)
Theorem caller_headers_replace_default
    (url : list N) (options : RequestInit) (h : list (list N * list N)) :
  init_headers options = Some h ->
  req_headers (finalOptions url options) = h
  /\ List.In (js "Content-Type") (List.map fst (defaultHeaders options))
  /\ req_headers
       (finalOptions url {| init_method := init_method options;
                            init_headers := None;
                            init_body := init_body options |})
     = [(js "Content-Type", js "application/json")].
Proof.
  intros Hh. unfold finalOptions. rewrite Hh. simpl.
  split; [reflexivity|]. split; [|reflexivity].
  unfold defaultHeaders. apply spread_keeps_keys. left. reflexivity.
Qed.

Lemma caller_headers_replace_default_witness :
  let options := {| init_method := Some (js "POST");
                    init_headers := Some [(js "Authorization", js "Bearer t0k3n")];
                    init_body := Some (js "{}") |} in
  req_headers (finalOptions (BASE_URL ++ js "/optimize") options)
    = [(js "Authorization", js "Bearer t0k3n")].
Proof.
  intros options.
  exact (proj1 (caller_headers_replace_default
                  (BASE_URL ++ js "/optimize") options
                  [(js "Authorization", js "Bearer t0k3n")] eq_refl)).
Defined.

(** An empty string under the key counts as no identifier: the load
    generates one and overwrites it, as it does when the key is
    missing. *)
Theorem empty_stored_id_is_replaced
    (ls : gmap (list N) (list N)) (r36 : list N) :
  load r36 (<[SESSION_KEY := []]> ls)
    = {| localStorage := <[SESSION_KEY := fresh_session_id r36]> ls;
         api := {| sessionId := fresh_session_id r36 |} |}
  /\ load r36 (<[SESSION_KEY := []]> ls) = load r36 (delete SESSION_KEY ls).
Proof.
  unfold load, getSessionId.
  rewrite lookup_insert_eq, lookup_delete_eq. simpl.
  rewrite insert_insert_eq, insert_delete_eq. split; reflexivity.
Qed.

(** A reset survives a reload: loading the page over the storage a
    reset left gives the state the reset left, whatever [Math.random]
    says at the reload. *)
Theorem reset_survives_reload (r r' : list N) (b : Browser) :
  load r' (localStorage (resetSession r b)) = resetSession r b.
Proof. apply reload_fixpoint, resetSession_session_stored. Qed.

(** Of two resets in a row the second wins: nothing of the first
    identifier is left in the client or in storage. *)
Theorem resetSession_last_wins (r1 r2 : list N) (b : Browser) :
  resetSession r2 (resetSession r1 b) = resetSession r2 b.
Proof.
  unfold resetSession. simpl. rewrite insert_insert_eq. reflexivity.
Qed.

Lemma substring_2_15 (s : list N) :
  substring 2 15 s = List.firstn 13 (List.skipn 2 s).
Proof.
  unfold substring.
  destruct (Nat.le_gt_cases 15 (length s)) as [H|H].
  - rewrite !Nat.min_l, Nat.max_r by lia. reflexivity.
  - destruct (Nat.le_gt_cases 2 (length s)) as [H2|H2].
    + rewrite (Nat.min_l 2), (Nat.min_r 15), Nat.min_l, Nat.max_r by lia.
      rewrite !List.firstn_all2 by (rewrite List.length_skipn; lia).
      reflexivity.
    + rewrite (Nat.min_r 2), (Nat.min_r 15), Nat.min_l, Nat.max_r by lia.
      rewrite Nat.sub_diag, (List.skipn_all2 (n := 2)) by lia.
      reflexivity.
Qed.

(** A generated identifier is ['cemenos_'] followed by the third to
    fifteenth code units of the random text, as many as there are: it
    has between 8 and 21 code units, and when the text has fewer than
    three (the text of 0 is ['0']) it is ['cemenos_'] alone. *)
Theorem fresh_session_id_shape (r36 : list N) :
  fresh_session_id r36 = js "cemenos_" ++ List.firstn 13 (List.skipn 2 r36)
  /\ length (fresh_session_id r36) = (8 + Nat.min 13 (length r36 - 2))%nat
  /\ (8 <= length (fresh_session_id r36) <= 21)%nat
  /\ ((length r36 <= 2)%nat <-> fresh_session_id r36 = js "cemenos_").
Proof.
  unfold fresh_session_id. rewrite substring_2_15.
  assert (Hlen : length (List.firstn 13 (List.skipn 2 r36))
                 = Nat.min 13 (length r36 - 2))
    by (rewrite List.length_firstn, List.length_skipn; reflexivity).
  assert (Hpre : length (js "cemenos_") = 8%nat) by reflexivity.
  split; [reflexivity|]. split; [|split].
  - rewrite length_app, Hlen, Hpre. reflexivity.
  - rewrite length_app, Hlen, Hpre. lia.
  - split.
    + intros H. rewrite List.skipn_all2 by exact H. reflexivity.
    + intros H. apply (f_equal (@length N)) in H.
      rewrite length_app, Hlen, Hpre in H. lia.
Qed.

(** [deleteSession] called with no identifier, or with the empty
    string, addresses the client's own session: one [DELETE] of
    [/sessions/<own id>] without body, the identifier a [sendMessage]
    attaches. *)
Theorem deleteSession_defaults_to_own_session
    (this : CementOSAPI) (net : Network jsvalue)
    (chat : Network ChatResponse) (message : list N)
    (session : option (list N)) :
  session = None \/ session = Some [] ->
  exists rest rest',
    fst (deleteSession this net session)
      = EvFetch {| req_url := BASE_URL ++ js "/sessions/" ++ sessionId this;
                   req_method := Some (js "DELETE");
                   req_headers := [(js "Content-Type", js "application/json")];
                   req_body := None |} :: rest
    /\ List.Forall not_fetch rest
    /\ fst (sendMessage this chat message session)
         = EvFetch (chat_request message (sessionId this)) :: rest'.
Proof.
  intros H.
  destruct (makeRequest_events net (js "/sessions/" ++ or_else session (sessionId this))
              {| init_method := Some (js "DELETE"); init_headers := None;
                 init_body := None |}) as (rest & He & Hr).
  destruct (sendMessage_events this chat message session) as (rest' & He' & _).
  exists rest, rest'. unfold deleteSession.
  rewrite He, He'. destruct H as [-> | ->]; simpl; auto.
Qed.

Lemma deleteSession_defaults_to_own_session_witness :
  let this := {| sessionId := js "cemenos_4fzyo82mvyr" |} in
  let net : Network jsvalue :=
    fun _ => Fulfilled {| status := 200; json := Fulfilled (JObj []) |} in
  let chat : Network ChatResponse :=
    fun _ => Rejected (mkError (js "TypeError") (js "Failed to fetch")) in
  exists rest rest',
    fst (deleteSession this net (Some []))
      = EvFetch {| req_url := BASE_URL ++ js "/sessions/" ++ sessionId this;
                   req_method := Some (js "DELETE");
                   req_headers := [(js "Content-Type", js "application/json")];
                   req_body := None |} :: rest
    /\ List.Forall not_fetch rest
    /\ fst (sendMessage this chat (js "hello") (Some []))
         = EvFetch (chat_request (js "hello") (sessionId this)) :: rest'.
Proof.
  intros this net chat.
  apply (deleteSession_defaults_to_own_session this net chat (js "hello") (Some [])).
  right. reflexivity.
Defined.

End ApiMore.

(** ** The chat widget, continued *)

Section ChatbotMore.
Import JS Chatbot.

Lemma filter_is_fetch_map rest :
  List.Forall Api.not_fetch rest ->
  List.filter is_fetch (List.map Api_event rest) = [].
Proof.
  induction 1 as [|e rest He _ IH]; [reflexivity|].
  simpl. destruct e; simpl in *; [contradiction|exact IH|exact IH].
Qed.

(** The effects of the [try] block: the one chat request and what
    [makeRequest] logs when connected, the one-second wait when not. *)
Lemma try_block_effects this (connected : bool) m env :
  if connected then
    exists rest,
      fst (try_block this true m env)
        = Api_event (Api.EvFetch (Api.chat_request m (Api.sessionId this)))
            :: List.map Api_event rest
      /\ List.Forall Api.not_fetch rest
  else fst (try_block this false m env) = [Sleep 1000].
Proof.
  destruct connected; [|reflexivity].
  unfold try_block.
  destruct (sendMessage_events this (net env) m None) as (rest & He & Hr).
  exists rest. split; [|exact Hr].
  destruct (Api.sendMessage this (net env) m None) as [ev [resp|e]];
    simpl in He; subst ev; [destruct (Api.success resp)|]; reflexivity.
Qed.

(** The [try] block either makes one setter call, appending a bot
    message, or throws. *)
Lemma try_block_result this connected m env :
  (exists bm, snd (try_block this connected m env)
                = Api.Fulfilled [setChatHistory_append bm]
              /\ type bm = bot)
  \/ (exists e, snd (try_block this connected m env) = Api.Rejected e).
Proof.
  unfold try_block. destruct connected.
  - destruct (Api.sendMessage this (net env) m None) as [ev [resp|e]];
      [destruct (Api.success resp)|]; simpl; eauto.
  - left. eexists. split; reflexivity.
Qed.

(** The shape of every run that passes the guard. *)
Lemma handleSend_accepted this st env :
  trim (draft st) <> [] -> isLoading st = false ->
  exists bm,
    type bm = bot
    /\ handleSend this st env
       = {| immediate := [setChatHistory_append (user_message st env);
                          setIsLoading true; setMessage []];
            effects := effects (handleSend this st env);
            deferred := [setChatHistory_append bm; setIsLoading false] |}
    /\ List.filter is_fetch (effects (handleSend this st env))
       = List.filter is_fetch (fst (try_block this (isConnected st) (draft st) env)).
Proof.
  intros Ht Hl. unfold handleSend. rewrite (guard_passes st Ht Hl).
  destruct (try_block_result this (isConnected st) (draft st) env)
    as [(bm & Hs & Hb)|(e & Hs)];
    destruct (try_block this (isConnected st) (draft st) env) as [ev r];
    simpl in Hs; subst r.
  - exists bm. simpl. rewrite app_nil_r. auto.
  - exists (error_message env). simpl. split; [reflexivity|].
    split; [reflexivity|].
    rewrite List.filter_app. simpl. apply app_nil_r.
Qed.

(** Every send that passes the guard, whatever the connection and the
    network do, adds exactly two messages to the history, the user's
    and then one from the bot, empties the input, ends with the loading
    flag off, leaves the connected, open and minimized flags alone, and
    makes one request if the widget is connected and none if not. *)
Theorem accepted_send_adds_two_messages
    (this : Api.CementOSAPI) (st : State) (env : Env) :
  trim (draft st) <> [] ->
  isLoading st = false ->
  let r := handleSend this st env in
  let st' := settle r st in
  (exists bm,
     type bm = bot
     /\ reply r = Some bm
     /\ chatHistory st' = chatHistory st ++ [user_message st env; bm])
  /\ draft st' = []
  /\ isLoading st' = false
  /\ isConnected st' = isConnected st
  /\ isOpen st' = isOpen st
  /\ isMinimized st' = isMinimized st
  /\ length (List.filter is_fetch (effects r))
     = (if isConnected st then 1 else 0)%nat.
Proof.
  intros Ht Hl r st'.
  destruct (handleSend_accepted this st env Ht Hl) as (bm & Hb & Hr & Hf).
  unfold st', r. rewrite Hf. rewrite Hr. unfold settle, commit, reply. simpl.
  split; [|repeat split].
  - exists bm. rewrite <- app_assoc. auto.
  - pose proof (try_block_effects this (isConnected st) (draft st) env) as He.
    destruct (isConnected st).
    + destruct He as (rest & -> & Hrest). simpl.
      rewrite (filter_is_fetch_map rest Hrest). reflexivity.
    + rewrite He. reflexivity.
Qed.

Lemma accepted_send_adds_two_messages_witness :
  let this := {| Api.sessionId := js "cemenos_4fzyo82mvyr" |} in
  let st := {| isOpen := true; isMinimized := false; draft := js "  View alerts ";
               isLoading := false; isConnected := true;
               chatHistory := chatHistory (initial (js "10:15:00")) |} in
  let env := {| time_sent := js "10:16:00";
                net := fun _ => Api.Fulfilled
                                  {| Api.status := 502;
                                     Api.json := Api.Rejected
                                       (Api.mkError (js "SyntaxError") (js "Unexpected token <")) |};
                toLocaleTime := fun s => s;
                random := {| numer := 3; denom := 7 |};
                time_reply := js "10:16:01" |} in
  let r := handleSend this st env in
  draft (settle r st) = [] /\ isLoading (settle r st) = false.
Proof.
  intros this st env r.
  destruct (accepted_send_adds_two_messages this st env) as (_ & Hd & Hl & _).
  - discriminate.
  - reflexivity.
  - split; assumption.
Defined.

(** A send answered with a 2xx response whose parsed body has
    [success] true shows the server's text as the bot reply, stamped
    with the local time of the server's timestamp and carrying the
    processing time; the only effect is the one request, no toast and
    no log line. *)
Theorem successful_send_shows_reply
    (this : Api.CementOSAPI) (st : State) (env : Env)
    (resp : Api.Response Api.ChatResponse) (data : Api.ChatResponse) :
  isConnected st = true ->
  trim (draft st) <> [] ->
  isLoading st = false ->
  net env (Api.chat_request (draft st) (Api.sessionId this)) = Api.Fulfilled resp ->
  Api.ok resp = true ->
  Api.json resp = Api.Fulfilled data ->
  Api.success data = true ->
  let r := handleSend this st env in
  let answer :=
    {| type := bot; message := Api.response data;
       timestamp := toLocaleTime env (Api.timestamp data);
       processingTime := Some (Api.processing_time_ms data);
       isError := None |} in
  effects r
    = [Api_event (Api.EvFetch (Api.chat_request (draft st) (Api.sessionId this)))]
  /\ chatHistory (settle r st)
     = chatHistory st ++ [user_message st env; answer]
  /\ isLoading (settle r st) = false
  /\ draft (settle r st) = [].
Proof.
  intros Hc Ht Hl Hn Ho Hj Hs r answer.
  unfold r, handleSend. rewrite (guard_passes st Ht Hl), Hc.
  unfold try_block, Api.sendMessage, Api.makeRequest.
  change (Api.finalOptions _ _)
    with (Api.chat_request (draft st) (Api.sessionId this)).
  rewrite Hn, Ho, Hj. simpl. rewrite Hs. simpl.
  unfold settle, commit. simpl. rewrite <- app_assoc. auto.
Qed.

Lemma successful_send_shows_reply_witness :
  let this := {| Api.sessionId := js "cemenos_4fzyo82mvyr" |} in
  let st := {| isOpen := true; isMinimized := false; draft := js "Check plant status";
               isLoading := false; isConnected := true;
               chatHistory := chatHistory (initial (js "10:15:00")) |} in
  let data := {| Api.success := true; Api.response := js "All systems nominal.";
                 Api.session_id := js "cemenos_4fzyo82mvyr";
                 Api.timestamp := js "2024-01-15T10:16:01Z";
                 Api.processing_time_ms := 412 # 1 |} in
  let resp := {| Api.status := 200; Api.json := Api.Fulfilled data |} in
  let env := {| time_sent := js "10:16:00";
                net := fun _ => Api.Fulfilled resp;
                toLocaleTime := fun _ => js "10:16:01";
                random := {| numer := 3; denom := 7 |};
                time_reply := js "10:16:02" |} in
  List.map message (chatHistory (settle (handleSend this st env) st))
    = [greeting; js "Check plant status"; js "All systems nominal."].
Proof.
  intros this st data resp env.
  destruct (successful_send_shows_reply this st env resp data
              eq_refl ltac:(discriminate) eq_refl eq_refl eq_refl eq_refl eq_refl)
    as (_ & Hh & _).
  rewrite Hh. reflexivity.
Defined.

(** While a send is in flight a second send does nothing: once the
    first part of [handleSend] has run, the loading flag is on and the
    input is empty, and [handleSend] in that state, with whatever text
    a quick action may have put in the input, returns at once. *)
Theorem no_send_while_in_flight
    (this : Api.CementOSAPI) (st : State) (env env' : Env) (typed : list N) :
  trim (draft st) <> [] ->
  isLoading st = false ->
  let flying := commit (immediate (handleSend this st env)) st in
  isLoading flying = true
  /\ draft flying = []
  /\ handleSend this flying env' = nothing
  /\ handleSend this (apply flying (setMessage typed)) env' = nothing.
Proof.
  intros Ht Hl flying.
  destruct (handleSend_accepted this st env Ht Hl) as (bm & _ & Hr & _).
  unfold flying. rewrite Hr. unfold commit. simpl.
  repeat split; unfold handleSend; simpl; apply f_equal ||
    (rewrite Bool.orb_true_r; reflexivity).
Qed.

Lemma no_send_while_in_flight_witness :
  let this := {| Api.sessionId := js "cemenos_4fzyo82mvyr" |} in
  let st := {| isOpen := true; isMinimized := false; draft := js "Check plant status";
               isLoading := false; isConnected := false;
               chatHistory := chatHistory (initial (js "10:15:00")) |} in
  let env := {| time_sent := js "10:16:00";
                net := fun _ => Api.Rejected (Api.mkError (js "TypeError") (js "Failed to fetch"));
                toLocaleTime := fun s => s;
                random := {| numer := 0; denom := 1 |};
                time_reply := js "10:16:01" |} in
  handleSend this
    (apply (commit (immediate (handleSend this st env)) st)
           (setMessage (js "Optimize energy usage"))) env
    = nothing.
Proof.
  intros this st env.
  destruct (no_send_while_in_flight this st env env (js "Optimize energy usage"))
    as (_ & _ & _ & H); [discriminate|reflexivity|exact H].
Defined.

(** The send button is disabled in exactly the states in which
    [handleSend] does nothing. *)
Theorem send_button_matches_guard
    (this : Api.CementOSAPI) (st : State) (env : Env) :
  send_disabled st = true <-> handleSend this st env = nothing.
Proof.
  unfold send_disabled, handleSend.
  rewrite (Bool.orb_comm (isLoading st)).
  destruct (negb (truthy (trim (draft st))) || isLoading st) eqn:E.
  - split; reflexivity.
  - split; [discriminate|].
    destruct (try_block this (isConnected st) (draft st) env) as [ev [acts|e]];
      [|destruct (catch_block env)]; discriminate.
Qed.

(** Pressing Enter in the input is a click on the send button, in every
    state; any other key does nothing. *)
Theorem enter_key_is_send
    (this : Api.CementOSAPI) (st : State) (env : Env) (key : list N) :
  onKeyPress (js "Enter") this st env = handleSend this st env
  /\ (key <> js "Enter" -> onKeyPress key this st env = nothing).
Proof.
  unfold onKeyPress, str_eqb. split.
  - rewrite bool_decide_eq_true_2 by reflexivity. simpl.
    destruct (isLoading st) eqn:E; [|reflexivity].
    unfold handleSend. rewrite E, Bool.orb_true_r. reflexivity.
  - intros H. rewrite bool_decide_eq_false_2 by exact H. reflexivity.
Qed.

Lemma enter_key_is_send_witness :
  let this := {| Api.sessionId := js "cemenos_4fzyo82mvyr" |} in
  let st := initial (js "10:15:00") in
  let env := {| time_sent := js "10:16:00";
                net := fun _ => Api.Rejected (Api.mkError (js "TypeError") (js "Failed to fetch"));
                toLocaleTime := fun s => s;
                random := {| numer := 0; denom := 1 |};
                time_reply := js "10:16:01" |} in
  onKeyPress (js "a") this st env = nothing.
Proof.
  intros this st env.
  apply (proj2 (enter_key_is_send this st env (js "a"))). discriminate.
Defined.

Lemma not_in_map_Api_event (x : effect) rest :
  (forall e, x <> Api_event e) -> ~ List.In x (List.map Api_event rest).
Proof.
  intros H Hin. apply List.in_map_iff in Hin as (e & He & _).
  apply (H e). symmetry. exact He.
Qed.

(** The two ways [checkAPIConnection] can go. *)
Lemma checkAPIConnection_cases (health : Api.Network Api.jsvalue) :
  let request := Api.finalOptions (Api.BASE_URL ++ js "/health") Api.no_options in
  (exists rest v,
     List.Forall Api.not_fetch rest
     /\ snd (Api.healthCheck health) = Api.Fulfilled v
     /\ checkAPIConnection health
        = (Api_event (Api.EvFetch request) :: List.map Api_event rest
             ++ [console_log (js "CementOS API connected successfully")],
           [setIsConnected true]))
  \/ (exists rest e,
        List.Forall Api.not_fetch rest
        /\ snd (Api.healthCheck health) = Api.Rejected e
        /\ checkAPIConnection health
           = (Api_event (Api.EvFetch request) :: List.map Api_event rest
                ++ [console_error (js "Failed to connect to CementOS API:");
                    toast {| UI.title := js "API Connection Issue";
                             UI.description :=
                               js "Using offline mode. Some features may be limited.";
                             UI.variant := Some (js "destructive") |}],
              [setIsConnected false])).
Proof.
  intros request. unfold checkAPIConnection, Api.healthCheck.
  destruct (makeRequest_events health (js "/health") Api.no_options)
    as (rest & He & Hr). fold request in He.
  destruct (Api.makeRequest health (js "/health") Api.no_options) as [ev0 [v|e]];
    cbn [fst] in He; subst ev0; [left|right]; eauto 6.
Qed.

(** [checkAPIConnection] makes one request, a [GET /health]; the
    connected flag it leaves is true exactly when that call did not
    raise, the destructive toast is shown exactly when it did, and no
    other part of the state changes. *)
Theorem checkAPIConnection_outcome
    (health : Api.Network Api.jsvalue) (st : State) :
  let ev := fst (checkAPIConnection health) in
  let st' := commit (snd (checkAPIConnection health)) st in
  (isConnected st' = true <-> ~ Api.raises (Api.healthCheck health))
  /\ (List.In (toast {| UI.title := js "API Connection Issue";
                        UI.description :=
                          js "Using offline mode. Some features may be limited.";
                        UI.variant := Some (js "destructive") |}) ev
      <-> Api.raises (Api.healthCheck health))
  /\ List.filter is_fetch ev
     = [Api_event (Api.EvFetch
          {| Api.req_url := Api.BASE_URL ++ js "/health";
             Api.req_method := None;
             Api.req_headers := [(js "Content-Type", js "application/json")];
             Api.req_body := None |})]
  /\ st' = {| isOpen := isOpen st; isMinimized := isMinimized st;
              draft := draft st; isLoading := isLoading st;
              isConnected := isConnected st'; chatHistory := chatHistory st |}.
Proof.
  intros ev st'. unfold ev, st', Api.raises.
  destruct (checkAPIConnection_cases health)
    as [(rest & v & Hr & Hs & ->)|(rest & e & Hr & Hs & ->)];
    rewrite Hs; cbn [fst snd commit List.fold_left apply isConnected].
  - split; [|split; [|split]].
    + split; [intros _ [e He]; discriminate|reflexivity].
    + split; [|intros [e He]; discriminate].
      intros [H|H]; [discriminate|].
      apply List.in_app_or in H as [H|[H|[]]]; [|discriminate].
      exfalso. revert H. apply not_in_map_Api_event. discriminate.
    + cbn [List.filter is_fetch].
      rewrite List.filter_app, filter_is_fetch_map by exact Hr. reflexivity.
    + reflexivity.
  - split; [|split; [|split]].
    + split; [discriminate|]. intros H. exfalso. apply H. eauto.
    + split; [eauto|]. intros _.
      apply List.in_cons, List.in_or_app. right. right. left. reflexivity.
    + cbn [List.filter is_fetch].
      rewrite List.filter_app, filter_is_fetch_map by exact Hr. reflexivity.
    + reflexivity.
Qed.

(** The text goes to the server as typed: the body of the request of a
    connected send reads back as the input's text, untrimmed, and the
    client's session identifier, and the message kept in the history is
    the same text. *)
Theorem sent_text_is_verbatim
    (this : Api.CementOSAPI) (st : State) (env : Env) :
  isConnected st = true ->
  trim (draft st) <> [] ->
  isLoading st = false ->
  let r := handleSend this st env in
  exists request rest,
    effects r = Api_event (Api.EvFetch request) :: rest
    /\ List.filter is_fetch rest = []
    /\ (Api.req_body request ≫= Api.read_chat_body)
       = Some (draft st, Api.sessionId this)
    /\ List.nth_error (chatHistory (settle r st)) (length (chatHistory st))
       = Some (user_message st env)
    /\ message (user_message st env) = draft st.
Proof.
  intros Hc Ht Hl r.
  destruct (handleSend_accepted this st env Ht Hl) as (bm & _ & Hr & _).
  pose proof (try_block_effects this true (draft st) env) as (rest & He & Hrest).
  assert (Heff : exists tail,
             effects r
               = Api_event (Api.EvFetch (Api.chat_request (draft st) (Api.sessionId this)))
                   :: List.map Api_event rest ++ tail
             /\ List.filter is_fetch tail = []).
  { unfold r, handleSend. rewrite (guard_passes st Ht Hl), Hc.
    destruct (try_block this true (draft st) env) as [ev [acts|e]];
      simpl in He; subst ev; simpl.
    - exists []. rewrite app_nil_r. auto.
    - eexists. split; reflexivity. }
  destruct Heff as (tail & Heff & Htail).
  exists (Api.chat_request (draft st) (Api.sessionId this)),
         (List.map Api_event rest ++ tail).
  split; [exact Heff|]. split; [|split; [|split]].
  - rewrite List.filter_app, filter_is_fetch_map, Htail by exact Hrest.
    reflexivity.
  - simpl. apply read_chat_body_stringify.
  - unfold r. rewrite Hr. unfold settle, commit. simpl.
    rewrite <- app_assoc. rewrite List.nth_error_app2 by lia.
    rewrite Nat.sub_diag. reflexivity.
  - reflexivity.
Qed.

Lemma sent_text_is_verbatim_witness :
  let this := {| Api.sessionId := js "cemenos_4fzyo82mvyr" |} in
  let st := {| isOpen := true; isMinimized := false; draft := js " Check plant status";
               isLoading := false; isConnected := true;
               chatHistory := chatHistory (initial (js "10:15:00")) |} in
  let env := {| time_sent := js "10:16:00";
                net := fun _ => Api.Rejected (Api.mkError (js "TypeError") (js "Failed to fetch"));
                toLocaleTime := fun s => s;
                random := {| numer := 0; denom := 1 |};
                time_reply := js "10:16:01" |} in
  exists request rest,
    effects (handleSend this st env) = Api_event (Api.EvFetch request) :: rest
    /\ List.filter is_fetch rest = []
    /\ (Api.req_body request ≫= Api.read_chat_body)
       = Some (js " Check plant status", js "cemenos_4fzyo82mvyr")
    /\ List.nth_error (chatHistory (settle (handleSend this st env) st))
                      (length (chatHistory st))
       = Some (user_message st env)
    /\ message (user_message st env) = js " Check plant status".
Proof.
  intros this st env.
  apply (sent_text_is_verbatim this st env);
    [reflexivity|discriminate|reflexivity].
Defined.

Lemma quickAction_text_drops_two a b rest :
  quickAction_text (a :: b :: rest) = rest.
Proof.
  unfold quickAction_text, substring. cbn [length].
  rewrite (Nat.min_l 2), Nat.min_id, Nat.min_l, Nat.max_r by lia.
  replace (S (S (length rest)) - 2)%nat with (length rest) by lia.
  apply (List.firstn_all rest).
Qed.

(** A quick action puts its label without the first two code units in
    the input.  So a label that starts with an emoji of two code units
    keeps the space that follows it and the label that starts with
    U+26A1 does not; either way the text passes the guard of
    [handleSend], whose trimmed form is the label's words. *)
Theorem quick_action_fills_sendable_text :
  (forall a b rest, quickAction_click (a :: b :: rest) = [setMessage rest])
  /\ List.map quickAction_text quickActions
     = [ js " Check plant status"; js "Optimize energy usage";
         js " Review quality metrics"; js " Analyze emissions";
         js " Generate report"; js " View alerts" ]
  /\ List.map (fun label => trim (quickAction_text label)) quickActions
     = [ js "Check plant status"; js "Optimize energy usage";
         js "Review quality metrics"; js "Analyze emissions";
         js "Generate report"; js "View alerts" ]
  /\ List.Forall (fun label => send_disabled
                    {| isOpen := true; isMinimized := false;
                       draft := quickAction_text label; isLoading := false;
                       isConnected := false; chatHistory := [] |} = false)
                 quickActions.
Proof.
  split; [|split; [|split]].
  - intros a b rest. unfold quickAction_click.
    rewrite quickAction_text_drops_two. reflexivity.
  - vm_compute. reflexivity.
  - vm_compute. reflexivity.
  - repeat constructor.
Qed.

End ChatbotMore.

(** ** The API status indicator, continued *)

Section StatusIndicatorMore.
Import JS StatusIndicator.

Lemma filter_all_true_on {A} (f : A -> bool) (l : list A) :
  List.Forall (fun x => f x = true) l -> List.filter f l = l.
Proof.
  induction 1 as [|x l Hx _ IH]; simpl; [reflexivity|].
  rewrite Hx, IH. reflexivity.
Qed.

(** After a check the indicator is never left checking or undecided:
    whatever the state was, the checking flag is off, the time of the
    check is recorded, and the connected flag is true if the health
    check answered and false if it raised, so the badge no longer reads
    ['Checking...']. *)
Theorem checkConnection_outcome
    (net : Api.Network Api.jsvalue) (time : list N) (st : State) :
  let st' := commit (snd (checkConnection net time)) st in
  st' = {| isConnected :=
             Some (match snd (Api.healthCheck net) with
                   | Api.Fulfilled _ => true
                   | Api.Rejected _ => false
                   end);
           isChecking := false;
           lastChecked := time |}
  /\ (isConnected st' = Some true <-> ~ Api.raises (Api.healthCheck net))
  /\ (isConnected st' = Some false <-> Api.raises (Api.healthCheck net))
  /\ badge_text st' <> js "Checking...".
Proof.
  intros st'. unfold st', checkConnection, Api.raises.
  destruct (Api.healthCheck net) as [ev [v|e]];
    cbn [fst snd commit List.fold_left apply app isConnected isChecking
         lastChecked badge_text].
  - split; [reflexivity|]. split; [|split].
    + split; [intros _ [e He]; discriminate|reflexivity].
    + split; [discriminate|intros [e He]; discriminate].
    + discriminate.
  - split; [reflexivity|]. split; [|split].
    + split; [discriminate|]. intros H. exfalso. apply H. eauto.
    + split; [eauto|reflexivity].
    + discriminate.
Qed.

Lemma advance_id t iv : id (advance t iv) = id iv.
Proof. unfold advance. destruct (due iv =? t); reflexivity. Qed.

Lemma tick_intervals tm :
  intervals (tick tm) = List.map (advance (now tm + 1)) (intervals tm)
  /\ now (tick tm) = now tm + 1
  /\ next_id (tick tm) = next_id tm.
Proof. unfold tick. repeat split. Qed.

(** A table with one more interval at its end runs like the table
    without it, that interval apart. *)
Lemma elapse_with_extra n : forall tm tm' iv,
  now tm' = now tm ->
  intervals tm' = intervals tm ++ [iv] ->
  exists iv',
    id iv' = id iv
    /\ now (elapse n tm') = now (elapse n tm)
    /\ intervals (elapse n tm') = intervals (elapse n tm) ++ [iv'].
Proof.
  unfold elapse. induction n as [|n IH] using N.peano_ind; intros tm tm' iv Hn Hi.
  - exists iv. auto.
  - rewrite !N.iter_succ.
    destruct (IH tm tm' iv Hn Hi) as (iv' & Hid & Hn' & Hi').
    destruct (tick_intervals (N.iter n tick tm)) as (Ea & Eb & _).
    destruct (tick_intervals (N.iter n tick tm')) as (Ea' & Eb' & _).
    exists (advance (now (N.iter n tick tm) + 1) iv').
    rewrite advance_id, Ea, Ea', Eb, Eb', Hi', Hn', List.map_app.
    auto.
Qed.

Lemma elapse_ids_issued n : forall tm,
  ids_issued tm ->
  ids_issued (elapse n tm) /\ next_id (elapse n tm) = next_id tm.
Proof.
  unfold elapse, ids_issued.
  induction n as [|n IH] using N.peano_ind; intros tm H; [auto|].
  rewrite N.iter_succ. destruct (IH tm H) as [Hi Hn].
  destruct (tick_intervals (N.iter n tick tm)) as (Ea & _ & Ec).
  rewrite Ea, Ec, Hn. split; [|reflexivity].
  rewrite List.Forall_map. rewrite <- Hn.
  revert Hi. apply List.Forall_impl. intros iv. rewrite advance_id. auto.
Qed.

(** The cleanup removes the component's own timer and no other: in a
    table that holds other timers, mounting the indicator, letting any
    time pass and unmounting it leaves exactly the timers the table
    would hold had the indicator never been mounted. *)
Theorem unmount_removes_only_own_timer (tm : Timers) (n : N) :
  ids_issued tm ->
  let mounted := mount tm in
  intervals (unmount (fst mounted) (elapse n (snd mounted)))
    = intervals (elapse n tm)
  /\ now (unmount (fst mounted) (elapse n (snd mounted))) = now (elapse n tm).
Proof.
  intros Hwf mounted.
  destruct (elapse_with_extra n tm (snd mounted)
              {| id := next_id tm; handler := checkConnection_cb;
                 delay := POLL_MS; due := now tm + POLL_MS |}
              eq_refl eq_refl) as (iv' & Hid & Hn & Hi).
  destruct (elapse_ids_issued n tm Hwf) as [Hissued Hnext].
  unfold unmount, clearInterval. cbn [intervals now]. split; [|exact Hn].
  rewrite Hi, List.filter_app. cbn [List.filter].
  change (fst mounted) with (next_id tm).
  rewrite Hid. cbn [id]. rewrite N.eqb_refl. cbn [negb]. rewrite app_nil_r.
  apply filter_all_true_on. unfold ids_issued in Hissued.
  rewrite Hnext in Hissued. revert Hissued. apply List.Forall_impl.
  intros iv Hlt. apply Bool.negb_true_iff, N.eqb_neq. lia.
Qed.

Lemma unmount_removes_only_own_timer_witness :
  let tm := {| now := 5000; next_id := 4;
               intervals := [ {| id := 3; handler := checkConnection_cb;
                                 delay := 1000; due := 5500 |} ];
               calls := [] |} in
  intervals (unmount (fst (mount tm)) (elapse 45000 (snd (mount tm))))
    = intervals (elapse 45000 tm)
  /\ now (unmount (fst (mount tm)) (elapse 45000 (snd (mount tm))))
     = now (elapse 45000 tm).
Proof.
  intros tm. apply (unmount_removes_only_own_timer tm 45000).
  repeat constructor.
Defined.

End StatusIndicatorMore.

(** ** The profile modal, continued *)

Section ProfileMore.
Import JS.

Lemma filter_index_from_past {A} (xs : list A) : forall k index,
  (index < k)%nat -> Profile.filter_index_from k index xs = xs.
Proof.
  induction xs as [|x xs IH]; intros k index H; simpl; [reflexivity|].
  destruct (Nat.eqb_spec k index) as [E|E]; [lia|]. simpl.
  rewrite IH by lia. reflexivity.
Qed.

Lemma filter_index_from_spec {A} (xs : list A) : forall k index,
  (k <= index)%nat ->
  Profile.filter_index_from k index xs
    = take (index - k) xs ++ drop (S (index - k)) xs.
Proof.
  induction xs as [|x xs IH]; intros k index H; simpl;
    [rewrite take_nil; reflexivity|].
  destruct (Nat.eqb_spec k index) as [E|E]; simpl.
  - subst k. rewrite Nat.sub_diag. simpl.
    rewrite drop_0. apply filter_index_from_past. lia.
  - rewrite IH by lia.
    replace (index - k)%nat with (S (index - S k)) by lia. reflexivity.
Qed.

(** [xs.filter((_, i) => i !== index)] is [xs] without its element at
    [index]. *)
Lemma filter_index_spec {A} (index : nat) (xs : list A) :
  Profile.filter_index index xs = take index xs ++ drop (S index) xs.
Proof.
  unfold Profile.filter_index. rewrite filter_index_from_spec by lia.
  rewrite Nat.sub_0_r. reflexivity.
Qed.

Lemma filter_index_last {A} (xs : list A) (x : A) :
  Profile.filter_index (length xs) (xs ++ [x]) = xs.
Proof.
  rewrite filter_index_spec.
  rewrite take_app_length, drop_ge by (rewrite length_app; simpl; lia).
  apply app_nil_r.
Qed.

(** [handleDeleteMember] at the index of a member removes that member
    and no other: the rest of the list keeps its order, the form is not
    touched, and the toast names the member removed.  At an index past
    the end it throws on reading the name, before any setter is called,
    and only then. *)
Theorem handleDeleteMember_removes_one (index : nat) (st : Profile.State) :
  ((length (Profile.teamMembers st) <= index)%nat
     <-> exists e, Profile.handleDeleteMember index st = Api.Rejected e)
  /\ (forall member,
        List.nth_error (Profile.teamMembers st) index = Some member ->
        Profile.handleDeleteMember index st
          = Api.Fulfilled
              ({| Profile.teamMembers :=
                    take index (Profile.teamMembers st)
                      ++ drop (S index) (Profile.teamMembers st);
                  Profile.isAddingMember := Profile.isAddingMember st;
                  Profile.newMember := Profile.newMember st |},
               [ {| UI.title := js "Team Member Removed";
                    UI.description :=
                      Profile.name member
                        ++ js " has been removed from the management team.";
                    UI.variant := None |} ])
        /\ length (take index (Profile.teamMembers st)
                     ++ drop (S index) (Profile.teamMembers st))
           = pred (length (Profile.teamMembers st))).
Proof.
  unfold Profile.handleDeleteMember. split.
  - destruct (List.nth_error (Profile.teamMembers st) index) eqn:E.
    + split; [|intros [e He]; discriminate].
      intros H. apply List.nth_error_None in H. congruence.
    + split; [eauto|]. intros _. apply List.nth_error_None, E.
  - intros member Hm. rewrite Hm.
    rewrite filter_index_spec. split; [reflexivity|].
    assert (Hlt : (index < length (Profile.teamMembers st))%nat).
    { apply List.nth_error_Some. congruence. }
    rewrite length_app, length_take, length_drop. lia.
Qed.

Lemma handleDeleteMember_removes_one_witness :
  Profile.handleDeleteMember 1 Profile.initial
    = Api.Fulfilled
        ({| Profile.teamMembers :=
              take 1 Profile.managementTeam ++ drop 2 Profile.managementTeam;
            Profile.isAddingMember := false;
            Profile.newMember := Profile.blank |},
         [ {| UI.title := js "Team Member Removed";
              UI.description :=
                js "Priya Sharma" ++ js " has been removed from the management team.";
              UI.variant := None |} ]).
Proof.
  exact (proj1 (proj2 (handleDeleteMember_removes_one 1 Profile.initial)
    {| Profile.name := js "Priya Sharma"; Profile.role := js "Operations Head";
       Profile.email := js "priya.s@plant.com";
       Profile.phone := js "+91-9876543211";
       Profile.experience := js "12 years";
       Profile.department := js "Production" |} eq_refl)).
Defined.

(** Adding a member and then deleting the last card gives back the
    team list as it was. *)
Theorem add_then_delete_member_roundtrip (st : Profile.State) :
  Profile.name (Profile.newMember st) <> [] ->
  Profile.role (Profile.newMember st) <> [] ->
  Profile.email (Profile.newMember st) <> [] ->
  exists toasts,
    Profile.handleDeleteMember (length (Profile.teamMembers st))
                               (fst (Profile.handleAddMember st))
      = Api.Fulfilled
          ({| Profile.teamMembers := Profile.teamMembers st;
              Profile.isAddingMember := false;
              Profile.newMember := Profile.blank |}, toasts).
Proof.
  intros Hn Hr He. unfold Profile.handleAddMember.
  apply truthy_nonempty in Hn, Hr, He. rewrite Hn, Hr, He.
  cbn [andb fst]. unfold Profile.handleDeleteMember.
  cbn [Profile.teamMembers Profile.isAddingMember Profile.newMember].
  rewrite List.nth_error_app2, Nat.sub_diag by lia. cbn [List.nth_error].
  rewrite filter_index_last. eauto.
Qed.

Lemma add_then_delete_member_roundtrip_witness :
  let st := {| Profile.teamMembers := Profile.managementTeam;
               Profile.isAddingMember := true;
               Profile.newMember :=
                 {| Profile.name := js "Kiran Rao"; Profile.role := js "Shift Lead";
                    Profile.email := js "kiran.r@plant.com"; Profile.phone := [];
                    Profile.experience := []; Profile.department := [] |} |} in
  exists toasts,
    Profile.handleDeleteMember 4 (fst (Profile.handleAddMember st))
      = Api.Fulfilled
          ({| Profile.teamMembers := Profile.managementTeam;
              Profile.isAddingMember := false;
              Profile.newMember := Profile.blank |}, toasts).
Proof.
  intros st.
  apply (add_then_delete_member_roundtrip st); discriminate.
Defined.

(** [handleAddProject]: with name, target or deadline empty it shows
    the destructive toast and changes nothing; with all three given it
    appends the project as typed, closes the form and resets it, where
    the reset form is not blank: its status is ['pending']. *)
Theorem handleAddProject_validates (st : ProfileProjects.State) :
  let p := ProfileProjects.newProject st in
  let st' := fst (ProfileProjects.handleAddProject st) in
  let toasts := snd (ProfileProjects.handleAddProject st) in
  (ProfileProjects.name p = [] \/ ProfileProjects.target p = []
   \/ ProfileProjects.deadline p = [] ->
     st' = st /\ List.map UI.variant toasts = [Some (js "destructive")])
  /\ (ProfileProjects.name p <> [] /\ ProfileProjects.target p <> []
      /\ ProfileProjects.deadline p <> [] ->
        ProfileProjects.projects st' = ProfileProjects.projects st ++ [p]
        /\ ProfileProjects.isAddingProject st' = false
        /\ ProfileProjects.newProject st' = ProfileProjects.blank
        /\ ProfileProjects.status (ProfileProjects.newProject st') = js "pending"
        /\ List.map UI.variant toasts = [None]).
Proof.
  intros p st' toasts.
  unfold st', toasts, ProfileProjects.handleAddProject. fold p. split.
  - intros H.
    assert (E : truthy (ProfileProjects.name p) && truthy (ProfileProjects.target p)
                && truthy (ProfileProjects.deadline p) = false).
    { destruct H as [-> | [-> | ->]]; cbn [truthy andb];
        rewrite ?Bool.andb_false_r; reflexivity. }
    rewrite E. split; reflexivity.
  - intros (Hn & Ht & Hd).
    apply truthy_nonempty in Hn, Ht, Hd. rewrite Hn, Ht, Hd.
    repeat split.
Qed.

Lemma handleAddProject_validates_witness :
  let draft :=
    {| ProfileProjects.name := js "Waste Heat Recovery";
       ProfileProjects.current := []; ProfileProjects.target := js "12 MW";
       ProfileProjects.deadline := []; ProfileProjects.status := js "pending";
       ProfileProjects.description := [] |} in
  let complete :=
    {| ProfileProjects.name := js "Waste Heat Recovery";
       ProfileProjects.current := []; ProfileProjects.target := js "12 MW";
       ProfileProjects.deadline := js "Q3 2025";
       ProfileProjects.status := js "pending";
       ProfileProjects.description := [] |} in
  let form p := {| ProfileProjects.projects := ProfileProjects.initiatives;
                   ProfileProjects.isAddingProject := true;
                   ProfileProjects.newProject := p |} in
  fst (ProfileProjects.handleAddProject (form draft)) = form draft
  /\ ProfileProjects.projects (fst (ProfileProjects.handleAddProject (form complete)))
     = ProfileProjects.initiatives ++ [complete].
Proof.
  intros draft complete form. split.
  - refine (proj1 (proj1 (handleAddProject_validates (form draft)) _)).
    right. right. reflexivity.
  - refine (proj1 (proj2 (handleAddProject_validates (form complete)) _)).
    repeat split; discriminate.
Defined.

(** Deleting the last project card right after a successful add undoes
    the add: the project list is the one before the add. *)
Theorem handleDeleteProject_undoes_add (st : ProfileProjects.State) :
  ProfileProjects.name (ProfileProjects.newProject st) <> [] ->
  ProfileProjects.target (ProfileProjects.newProject st) <> [] ->
  ProfileProjects.deadline (ProfileProjects.newProject st) <> [] ->
  ProfileProjects.handleDeleteProject
      (length (ProfileProjects.projects st))
      (fst (ProfileProjects.handleAddProject st))
    = Api.Fulfilled
        ({| ProfileProjects.projects := ProfileProjects.projects st;
            ProfileProjects.isAddingProject := false;
            ProfileProjects.newProject := ProfileProjects.blank |},
         [ {| UI.title := js "Project Removed";
              UI.description :=
                ProfileProjects.name (ProfileProjects.newProject st)
                  ++ js " has been removed from your initiatives.";
              UI.variant := None |} ]).
Proof.
  intros Hn Ht Hd. unfold ProfileProjects.handleAddProject.
  apply truthy_nonempty in Hn, Ht, Hd. rewrite Hn, Ht, Hd.
  cbn [andb fst]. unfold ProfileProjects.handleDeleteProject.
  cbn [ProfileProjects.projects ProfileProjects.isAddingProject
       ProfileProjects.newProject].
  rewrite List.nth_error_app2, Nat.sub_diag by lia. cbn [List.nth_error].
  rewrite filter_index_last. reflexivity.
Qed.

Lemma handleDeleteProject_undoes_add_witness :
  let st := {| ProfileProjects.projects := ProfileProjects.initiatives;
               ProfileProjects.isAddingProject := true;
               ProfileProjects.newProject :=
                 {| ProfileProjects.name := js "Waste Heat Recovery";
                    ProfileProjects.current := [];
                    ProfileProjects.target := js "12 MW";
                    ProfileProjects.deadline := js "Q3 2025";
                    ProfileProjects.status := js "pending";
                    ProfileProjects.description := [] |} |} in
  ProfileProjects.handleDeleteProject 3 (fst (ProfileProjects.handleAddProject st))
    = Api.Fulfilled
        ({| ProfileProjects.projects := ProfileProjects.initiatives;
            ProfileProjects.isAddingProject := false;
            ProfileProjects.newProject := ProfileProjects.blank |},
         [ {| UI.title := js "Project Removed";
              UI.description :=
                js "Waste Heat Recovery"
                  ++ js " has been removed from your initiatives.";
              UI.variant := None |} ]).
Proof.
  intros st. apply (handleDeleteProject_undoes_add st); discriminate.
Defined.

(** [handleAddCertification]: with name, type or issuer empty it shows
    the destructive toast and changes nothing; with all three given it
    appends the certification as typed, with the status the form held
    (['in-progress'] unless changed), and resets the form. *)
Theorem handleAddCertification_validates (st : ProfileCompliance.State) :
  let c := ProfileCompliance.newCert st in
  let st' := fst (ProfileCompliance.handleAddCertification st) in
  let toasts := snd (ProfileCompliance.handleAddCertification st) in
  (ProfileCompliance.name c = [] \/ ProfileCompliance.type c = []
   \/ ProfileCompliance.issuer c = [] ->
     st' = st /\ List.map UI.variant toasts = [Some (js "destructive")])
  /\ (ProfileCompliance.name c <> [] /\ ProfileCompliance.type c <> []
      /\ ProfileCompliance.issuer c <> [] ->
        ProfileCompliance.compliance st' = ProfileCompliance.compliance st ++ [c]
        /\ ProfileCompliance.isAddingCert st' = false
        /\ ProfileCompliance.newCert st' = ProfileCompliance.blank
        /\ List.map UI.variant toasts = [None]).
Proof.
  intros c st' toasts.
  unfold st', toasts, ProfileCompliance.handleAddCertification. fold c. split.
  - intros H.
    assert (E : truthy (ProfileCompliance.name c) && truthy (ProfileCompliance.type c)
                && truthy (ProfileCompliance.issuer c) = false).
    { destruct H as [-> | [-> | ->]]; cbn [truthy andb];
        rewrite ?Bool.andb_false_r; reflexivity. }
    rewrite E. split; reflexivity.
  - intros (Hn & Ht & Hi).
    apply truthy_nonempty in Hn, Ht, Hi. rewrite Hn, Ht, Hi.
    repeat split.
Qed.

Lemma handleAddCertification_validates_witness :
  let draft :=
    {| ProfileCompliance.name := js "ISO 45001:2018";
       ProfileCompliance.type := []; ProfileCompliance.status := js "in-progress";
       ProfileCompliance.expiry := []; ProfileCompliance.issuer := js "SGS" |} in
  let complete :=
    {| ProfileCompliance.name := js "ISO 45001:2018";
       ProfileCompliance.type := js "Safety Management";
       ProfileCompliance.status := js "in-progress";
       ProfileCompliance.expiry := []; ProfileCompliance.issuer := js "SGS" |} in
  let form c := {| ProfileCompliance.compliance := ProfileCompliance.certifications;
                   ProfileCompliance.isAddingCert := true;
                   ProfileCompliance.newCert := c |} in
  fst (ProfileCompliance.handleAddCertification (form draft)) = form draft
  /\ ProfileCompliance.compliance
       (fst (ProfileCompliance.handleAddCertification (form complete)))
     = ProfileCompliance.certifications ++ [complete].
Proof.
  intros draft complete form. split.
  - refine (proj1 (proj1 (handleAddCertification_validates (form draft)) _)).
    right. left. reflexivity.
  - refine (proj1 (proj2 (handleAddCertification_validates (form complete)) _)).
    repeat split; discriminate.
Defined.







End ProfileMore.

(** ** The saved-scenarios manager, continued *)

Section ScenariosMore.
Import JS Scenarios.

Lemma count_category_cons k s l :
  count_category k (s :: l)
    = ((if str_eqb (category_key (category s)) k then 1 else 0)
       + count_category k l)%nat.
Proof.
  unfold count_category. cbn [List.filter].
  destruct (str_eqb (category_key (category s)) k); reflexivity.
Qed.

(** Every scenario falls under exactly one of the four category keys. *)
Lemma one_category_key (c : Category) :
  ((if str_eqb (category_key c) (js "optimization") then 1 else 0)
   + (if str_eqb (category_key c) (js "emergency") then 1 else 0)
   + (if str_eqb (category_key c) (js "maintenance") then 1 else 0)
   + (if str_eqb (category_key c) (js "stress-test") then 1 else 0))%nat
  = 1%nat.
Proof. destruct c; vm_compute; reflexivity. Qed.

(** The numbers on the tabs add up: the count on "All Scenarios" is the
    number of scenarios and the sum of the counts on the four category
    tabs. *)
Theorem category_counts_add_up (st : State) :
  exists all o e m t,
    categories st = [all; o; e; m; t]
    /\ count all = length (scenarios st)
    /\ count all = (count o + count e + count m + count t)%nat.
Proof.
  do 5 eexists. split; [reflexivity|]. split; [reflexivity|].
  cbn [count]. induction (scenarios st) as [|s l IH]; [reflexivity|].
  rewrite !count_category_cons. cbn [length]. rewrite IH.
  pose proof (one_category_key (category s)). lia.
Qed.

Lemma filter_filter_and {A} (f g : A -> bool) (l : list A) :
  List.filter f (List.filter g l) = List.filter (fun x => g x && f x) l.
Proof.
  induction l as [|x l IH]; [reflexivity|]. cbn [List.filter].
  destruct (g x); cbn [List.filter andb]; [|exact IH].
  destruct (f x); rewrite IH; reflexivity.
Qed.

(** The number on a tab is the number of cards shown when that tab is
    selected and the search box is empty. *)
Theorem tab_count_is_cards_shown
    (toLowerCase : list N -> list N) (st : State) (tab : CategoryTab) :
  toLowerCase [] = [] ->
  List.In tab (categories st) ->
  length (filteredScenarios toLowerCase
            (setSearchQuery [] (setSelectedCategory (key tab) st)))
    = count tab.
Proof.
  intros Hlow Hin. unfold filteredScenarios.
  cbn [scenarios setSearchQuery setSelectedCategory].
  assert (Hsearch : forall s,
             matchesSearch toLowerCase
               (setSearchQuery [] (setSelectedCategory (key tab) st)) s = true).
  { intros s. unfold matchesSearch. cbn [searchQuery setSearchQuery].
    rewrite Hlow, includes_empty. reflexivity. }
  destruct Hin as [<-|[<-|[<-|[<-|[<-|[]]]]]]; cbn [key count];
    [rewrite filter_all_true; [reflexivity|] | | | | ];
    [intros s; rewrite Hsearch; reflexivity | | | | ];
    unfold count_category; f_equal; apply List.filter_ext; intros s;
    rewrite Hsearch, Bool.andb_true_r; reflexivity.
Qed.

Lemma tab_count_is_cards_shown_witness :
  length (filteredScenarios toLowerCase_ascii
            (setSearchQuery [] (setSelectedCategory (js "optimization") initial)))
    = 2%nat.
Proof.
  apply (tab_count_is_cards_shown toLowerCase_ascii initial
           {| key := js "optimization"; label := js "Optimization";
              count := 2 |});
    [reflexivity|right; left; reflexivity].
Defined.

(** The cards under a category tab are the cards under "All Scenarios",
    for the same search text, that have this category, in the same
    order. *)
Theorem category_tab_narrows_all
    (toLowerCase : list N -> list N) (st : State) (k : list N) :
  k <> js "all" ->
  filteredScenarios toLowerCase (setSelectedCategory k st)
    = List.filter (fun s => str_eqb (category_key (category s)) k)
        (filteredScenarios toLowerCase (setSelectedCategory (js "all") st)).
Proof.
  intros Hk. unfold filteredScenarios. rewrite filter_filter_and.
  apply List.filter_ext. intros s.
  unfold matchesCategory, matchesSearch.
  cbn [selectedCategory searchQuery setSelectedCategory].
  unfold str_eqb at 1 3.
  rewrite (bool_decide_eq_false_2 _ Hk), bool_decide_eq_true_2 by reflexivity.
  cbn [orb]. apply Bool.andb_comm.
Qed.

Lemma category_tab_narrows_all_witness :
  filteredScenarios toLowerCase_ascii
    (setSelectedCategory (js "emergency") (setSearchQuery (js "QUALITY") initial))
  = List.filter (fun s => str_eqb (category_key (category s)) (js "emergency"))
      (filteredScenarios toLowerCase_ascii
         (setSelectedCategory (js "all") (setSearchQuery (js "QUALITY") initial))).
Proof.
  apply (category_tab_narrows_all toLowerCase_ascii
           (setSearchQuery (js "QUALITY") initial) (js "emergency")).
  discriminate.
Defined.

Lemma delete_filter_absent (target : list N) (l : list SavedScenario) :
  List.Forall (fun s => id s <> target) l ->
  List.filter (fun s => negb (str_eqb (id s) target)) l = l.
Proof.
  induction 1 as [|s l Hs _ IH]; [reflexivity|]. cbn [List.filter].
  unfold str_eqb at 1. rewrite (bool_decide_eq_false_2 _ Hs). cbn [negb].
  rewrite IH. reflexivity.
Qed.

(** [handleDeleteScenario] removes every scenario that has the given
    id and keeps the others: a scenario is in the list afterwards
    exactly when it was there with another id.  Deleting the same id
    again, or an id no scenario has, changes nothing. *)
Theorem handleDeleteScenario_removes_id (target : list N) (st : State) :
  let st' := handleDeleteScenario target st in
  (forall s, List.In s (scenarios st')
             <-> List.In s (scenarios st) /\ id s <> target)
  /\ handleDeleteScenario target st' = st'
  /\ (List.Forall (fun s => id s <> target) (scenarios st) ->
      scenarios st' = scenarios st)
  /\ (length (scenarios st') <= length (scenarios st))%nat.
Proof.
  intros st'. unfold st', handleDeleteScenario, with_scenarios.
  cbn [scenarios selectedCategory searchQuery newScenarioName selectedScenario].
  assert (Hin : forall s,
             List.In s (List.filter (fun s => negb (str_eqb (id s) target))
                                    (scenarios st))
             <-> List.In s (scenarios st) /\ id s <> target).
  { intros s. rewrite List.filter_In. unfold str_eqb.
    rewrite Bool.negb_true_iff, bool_decide_eq_false. reflexivity. }
  split; [exact Hin|]. split; [|split].
  - f_equal. apply delete_filter_absent, List.Forall_forall.
    intros s Hs. apply Hin in Hs. tauto.
  - apply delete_filter_absent.
  - apply List.filter_length_le.
Qed.

Lemma handleDeleteScenario_removes_id_witness :
  scenarios (handleDeleteScenario (js "17") initial) = scenarios initial.
Proof.
  refine (proj1 (proj2 (proj2
    (handleDeleteScenario_removes_id (js "17") initial))) _).
  repeat constructor; discriminate.
Defined.

(** Deleting the copy undoes a duplication, provided no scenario
    already has the id the copy was given, the decimal text of the
    clock. *)
Theorem delete_undoes_duplicate (now : Z) (s : SavedScenario) (st : State) :
  List.Forall (fun x => id x <> Number_toString now) (scenarios st) ->
  handleDeleteScenario (Number_toString now) (handleDuplicateScenario now s st)
    = st.
Proof.
  intros Hfresh. unfold handleDeleteScenario, handleDuplicateScenario,
    with_scenarios.
  cbn [scenarios selectedCategory searchQuery newScenarioName selectedScenario
       List.filter duplicate id].
  unfold str_eqb at 1. rewrite bool_decide_eq_true_2 by reflexivity.
  cbn [negb]. rewrite (delete_filter_absent _ _ Hfresh).
  destruct st; reflexivity.
Qed.

Lemma delete_undoes_duplicate_witness :
  handleDeleteScenario (Number_toString 1705329000000)
    (handleDuplicateScenario 1705329000000 green_cement_protocol initial)
  = initial.
Proof.
  apply (delete_undoes_duplicate 1705329000000 green_cement_protocol initial).
  repeat constructor; discriminate.
Defined.

Lemma delete_filter_head (target : list N) (x : SavedScenario) l :
  id x = target ->
  List.filter (fun s => negb (str_eqb (id s) target)) (x :: l)
    = List.filter (fun s => negb (str_eqb (id s) target)) l.
Proof.
  intros H. cbn [List.filter]. unfold str_eqb at 1.
  rewrite (bool_decide_eq_true_2 _ H). reflexivity.
Qed.

(** Copies made within one millisecond share an id, whatever they are
    copies of, and so does a scenario saved in that millisecond; one
    click on delete for that id then removes all of them. *)
Theorem same_millisecond_copies_share_id
    (now : Z) (s1 s2 : SavedScenario) (st : State) :
  id (duplicate now s1) = id (duplicate now s2)
  /\ List.map id (List.firstn 3 (scenarios
        (handleSaveCurrentAsScenario now
           (handleDuplicateScenario now s2 (handleDuplicateScenario now s1 st)))))
     = [Number_toString now; Number_toString now; Number_toString now]
  /\ scenarios
       (handleDeleteScenario (Number_toString now)
          (handleSaveCurrentAsScenario now
             (handleDuplicateScenario now s2 (handleDuplicateScenario now s1 st))))
     = scenarios (handleDeleteScenario (Number_toString now) st).
Proof.
  split; [reflexivity|]. split; [reflexivity|].
  unfold handleDeleteScenario, handleSaveCurrentAsScenario,
    handleDuplicateScenario, with_scenarios.
  cbn [scenarios]. rewrite !delete_filter_head by reflexivity.
  reflexivity.
Qed.

(** Saving the current configuration puts one new draft scenario in
    front of the list, named as typed or ['New Scenario'] when the name
    box is empty, and empties the name box; the counts on the "All
    Scenarios" and "Optimization" tabs go up by one and the other three
    stay. *)
Theorem save_adds_to_optimization_tab (now : Z) (st : State) :
  let st' := handleSaveCurrentAsScenario now st in
  (exists d,
     scenarios st' = d :: scenarios st
     /\ name d = match newScenarioName st with
                 | [] => js "New Scenario"
                 | c :: n => c :: n
                 end
     /\ status d = draft /\ category d = optimization)
  /\ newScenarioName st' = []
  /\ List.map count (categories st')
     = List.map (fun tab =>
                   if str_eqb (key tab) (js "all")
                      || str_eqb (key tab) (js "optimization")
                   then S (count tab) else count tab)
                (categories st).
Proof.
  intros st'. split; [|split; [reflexivity|]].
  - eexists. split; [reflexivity|]. cbn [name status category].
    destruct (newScenarioName st); auto.
  - unfold st', handleSaveCurrentAsScenario, categories.
    cbn [scenarios List.map count key length].
    rewrite !count_category_cons. cbn [category].
    vm_compute (str_eqb _ _). reflexivity.
Qed.

End ScenariosMore.

(** ** The API demo card *)

Section APIDemoFacts.
Import JS APIDemo.

(** [fetchSystemStatus] makes one request, a [GET /status], and always
    ends with the loading flag off.  When the call succeeds the status
    shown is the parsed body and the toast is the plain one; when it
    raises, the status shown before stays on screen and the toast is
    the destructive one. *)
Theorem fetchSystemStatus_outcome
    (net : Api.Network Api.jsvalue) (st : State) :
  let ev := fst (fetchSystemStatus net) in
  let st' := commit (snd (fetchSystemStatus net)) st in
  isLoadingStatus st' = false
  /\ (exists rest,
        ev = Api_event (Api.EvFetch
               {| Api.req_url := Api.BASE_URL ++ js "/status";
                  Api.req_method := None;
                  Api.req_headers := [(js "Content-Type", js "application/json")];
                  Api.req_body := None |}) :: rest
        /\ List.Forall (fun e => match e with
                                 | Api_event (Api.EvFetch _) => False
                                 | _ => True
                                 end) rest)
  /\ match snd (Api.getSystemStatus net) with
     | Api.Fulfilled data =>
         systemStatus st' = Some data
         /\ List.In (toast updated_toast) ev
         /\ ~ List.In (toast failed_toast) ev
     | Api.Rejected _ =>
         systemStatus st' = systemStatus st
         /\ List.In (toast failed_toast) ev
         /\ ~ List.In (toast updated_toast) ev
     end.
Proof.
  intros ev st'. unfold ev, st', fetchSystemStatus, Api.getSystemStatus.
  destruct (makeRequest_events net (js "/status") Api.no_options)
    as (rest & He & Hr).
  assert (Hmap : List.Forall (fun e => match e with
                                       | Api_event (Api.EvFetch _) => False
                                       | _ => True
                                       end) (List.map Api_event rest)).
  { apply List.Forall_map. revert Hr. apply List.Forall_impl.
    intros [] H; exact H || exact I. }
  assert (Hno : forall t, ~ List.In (toast t) (List.map Api_event rest)).
  { intros t H. apply List.in_map_iff in H as (x & Hx & _). discriminate. }
  destruct (Api.makeRequest net (js "/status") Api.no_options) as [ev0 [data|e]];
    cbn [fst] in He; subst ev0;
    cbn [fst snd commit List.fold_left apply isLoadingStatus systemStatus
         List.map app].
  - split; [reflexivity|]. split; [|split; [reflexivity|split]].
    + eexists. split; [reflexivity|].
      apply List.Forall_app. split; [exact Hmap|repeat constructor].
    + right. apply List.in_or_app. right. left. reflexivity.
    + intros [H|H]; [discriminate|].
      apply List.in_app_or in H as [H|[H|[]]]; [exact (Hno _ H)|discriminate].
  - split; [reflexivity|]. split; [|split; [reflexivity|split]].
    + eexists. split; [reflexivity|].
      apply List.Forall_app. split; [exact Hmap|repeat constructor].
    + right. apply List.in_or_app. right. right. left. reflexivity.
    + intros [H|H]; [discriminate|].
      apply List.in_app_or in H as [H|[H|[H|[]]]];
        [exact (Hno _ H)|discriminate|discriminate].
Qed.

End APIDemoFacts.
